(** * Connection establishment for NETCONF: dialers, transports, Call Home

    A shallow embedding of the Go packages

      - [v2/netconf/client]           (Dialer, Transport, SSH and TLS dialers,
                                       the session factory),
      - [v2/netconf/client/callhome]  (manager role: listeners that accept TCP
                                       and then start SSH or TLS as client),
      - [v2/netconf/server/callhome]  (device role: dialers that open TCP and
                                       then answer SSH or TLS as server),
      - [v2/netconf/server/tls]       (the accept loop of the plain TLS server).

    The Go code is a sequence of calls into [net], [crypto/tls],
    [golang.org/x/crypto/ssh] and [mergo].  Each such call is modelled by an
    oracle of the class [World] that fixes what the library returns, and each
    call that changes a resource (Close, SetDeadline, Reply, Reject, a trace
    hook, the configuration merge) is recorded as an [Event].  A Go function
    becomes a computation in the monad [Go]: a chronological list of events
    together with either a result or a run-time panic. *)

From stdpp Require Import gmap strings list.
From Stdlib Require Import Strings.Byte ZArith.

Set Default Proof Using "Type".
Local Open Scope string_scope.
Local Open Scope list_scope.

(** ** Errors *)

(** Go [error] values.  [LibError] stands for an error produced inside a
    library; [Errorf] is [fmt.Errorf(msg)]; [Wrap msg cause] is
    [fmt.Errorf(msg + ": %w", cause)].  A nil [error] is [None]. *)
Inductive error : Type :=
| LibError (code : nat)
| Errorf (msg : string)
| Wrap (msg : string) (cause : error).

(** A library call returning [(value, err)] with exactly one of them set. *)
Inductive Try (A : Type) : Type :=
| Got (a : A)
| Failed (e : error).
Arguments Got {A} a.
Arguments Failed {A} e.

(** ** Time and contexts *)

(** [time.Time], as an instant on an integer scale; [time.Time{}] is the
    zero instant. *)
Definition Time : Type := Z.
Definition zeroTime : Time := 0%Z.

(** The part of [context.Context] the code reads: [ctx.Deadline()] and
    [ctx.Err()] (non-nil once the context is cancelled or expired). *)
Record Context : Type := {
  Deadline : option Time;
  Err : option error
}.

(** ** Resources *)

(** [net.Conn] obtained from a TCP dial or accept. *)
Record NetConn : Type := { conn_id : nat; RemoteAddr : string }.

(** Which side of the TLS handshake a [*tls.Conn] plays:
    [tls.Client(conn, cfg)] or [tls.Server(conn, cfg)]. *)
Inductive TLSRole : Type := AsClient | AsServer.

(** [*tls.Conn]: a TLS endpoint layered over a raw connection. *)
Record TLSConn : Type := { raw : NetConn; role : TLSRole; tls_config : nat }.

Definition tls_Client (c : NetConn) (config : nat) : TLSConn :=
  {| raw := c; role := AsClient; tls_config := config |}.
Definition tls_Server (c : NetConn) (config : nat) : TLSConn :=
  {| raw := c; role := AsServer; tls_config := config |}.

(** [*ssh.Client], [*ssh.Session], the stdin pipe of a session,
    [*ssh.ServerConn] and [ssh.Channel]. *)
Record SSHClient : Type := { client_id : nat; client_RemoteAddr : string }.
Record SSHSession : Type := { session_id : nat }.
Record Pipe : Type := { pipe_id : nat }.
Record ServerConn : Type := { serverconn_id : nat }.
Record Channel : Type := { chan_id : nat }.

(** Everything that has a [Close] method. *)
Inductive Handle : Type :=
| HNet (c : NetConn)
| HTLS (c : TLSConn)
| HClient (c : SSHClient)
| HSession (s : SSHSession)
| HPipe (p : Pipe)
| HServerConn (c : ServerConn)
| HChannel (c : Channel)
| HOther (id : nat).

(** [*ssh.Request]: a channel request sent by the peer. *)
Record Request : Type := {
  Type_ : string;
  WantReply : bool;
  Payload : list byte
}.

(** [ssh.RejectionReason]. *)
Inductive RejectionReason : Type :=
| Prohibited | ConnectionFailed | UnknownChannelType | ResourceShortage.

(** Heap addresses of [*Config] values. *)
Abbreviation loc := positive.

(** ** Events *)

(** The trace hooks of [client.ClientTrace] and of the two [callhome.Trace]
    records.  Durations are left out: they come from the wall clock. *)
Inductive Hook : Type :=
| ConnectStart (target : string)
| ConnectDone (target : string) (err : option error)
| DialStart (target : string)
| DialDone (target : string) (err : option error)
| ConnectionClosed (target : string) (err : option error)
| AcceptDone (conn : option NetConn) (err : option error)
| SSHConnected (target : string)
| SubsystemReady (target : string)
| TLSConnected (target : string) (conn : TLSConn).

Inductive Event : Type :=
| Closed (h : Handle)                       (* h.Close() *)
| DeadlineSet (c : TLSConn) (t : Time)      (* c.SetDeadline(t) *)
| Handshake (c : TLSConn)                   (* c.Handshake() *)
| Rejected (ch : Channel) (reason : RejectionReason) (message : string)
                                            (* newChannel.Reject(reason, message) *)
| Accepted (ch : Channel)                   (* newChannel.Accept() *)
| Replied (ch : Channel) (req : Request) (ok : bool)
                                            (* req.Reply(ok, nil) *)
| Sent (ch : Channel) (v : bool)            (* subsystemChan <- v, for channel ch *)
| Merged (dst src : loc)                    (* mergo.Merge(dst, src) *)
| Traced (h : Hook).                        (* a trace hook is invoked *)

(** ** The monad of Go computations *)

(** How a computation ends: with a value, or with a run-time panic. *)
Inductive Res (A : Type) : Type :=
| Done (a : A)
| Panic (msg : string).
Arguments Done {A} a.
Arguments Panic {A} msg.

(** The events performed, oldest first, and the way the computation ends. *)
Definition Go (A : Type) : Type := list Event * Res A.

Definition ret {A} (a : A) : Go A := ([], Done a).

Definition events {A} (m : Go A) : list Event := fst m.
Definition outcome {A} (m : Go A) : Res A := snd m.

(** Sequencing: the events of [m], then those of the continuation; a panic
    ends the computation where it happens. *)
Definition bind {A B} (m : Go A) (k : A -> Go B) : Go B :=
  match outcome m with
  | Done a => (events m ++ events (k a), outcome (k a))
  | Panic msg => (events m, Panic msg)
  end.

Definition emit (e : Event) : Go unit := ([e], Done tt).
Definition panic {A} (msg : string) : Go A := ([], Panic msg).
Definition trace (h : Hook) : Go unit := emit (Traced h).

Declare Scope go_scope.
Delimit Scope go_scope with go.
Notation "'do' x <- m ; k" := (bind m (fun x => k))
  (at level 10, x name, m at level 100, k at level 200) : go_scope.
Notation "'do' ' p <- m ; k" := (bind m (fun x => match x with p => k end))
  (at level 10, p pattern, m at level 100, k at level 200) : go_scope.
Notation "'run' m ; k" := (bind m (fun _ => k))
  (at level 10, m at level 100, k at level 200) : go_scope.
Local Open Scope go_scope.

(** ** Interface values *)

(** An [io.ReadWriteCloser] interface value, given by what its [Close]
    method does.  (Read and Write move bytes and are not part of the
    connection-establishment layer described here.) *)
Record ReadWriteCloser : Type := { rwc_Close : Go (option error) }.

(** [ssh.NewChannel]: a channel-open request of the peer.  [Accept] is what
    [newChannel.Accept()] returns: the stream of requests the peer sends on
    the channel until it closes it, or an error. *)
Record NewChannel : Type := {
  ChannelType : string;
  channel : Channel;
  Accept : Try (list Request)
}.

(** ** Session configuration *)

(** Modelled from the spec: the struct [Config], the variable
    [DefaultConfig] and the function [NewSession] of package [client] are
    declared in files that are not part of the sources at hand, and [mergo]
    is a library.  The spec describes the configuration as a record of
    optional fields (timeouts and the like) in which a field left at its
    zero value counts as unset.  A configuration is therefore a valuation of
    field names by scalar Go values. *)
Inductive Value : Type :=
| VInt (n : Z)
| VBool (b : bool)
| VString (s : string).

(** Modelled from the spec: the test for "left at its zero value" that the
    merge applies to a field ([mergo.isEmptyValue]). *)
Definition isEmptyValue (v : Value) : bool :=
  match v with
  | VInt n => (n =? 0)%Z
  | VBool b => negb b
  | VString s => String.eqb s ""
  end.

(** Modelled from the spec: the struct [Config], whose declaration is not
    among the sources, as a valuation of its field names. *)
Definition Config : Type := string -> Value.

(** The heap of configuration records: what each [*Config] points to. *)
Abbreviation Heap := (gmap loc Config).

(** Modelled from the spec: what [mergo.Merge] (a library, not among the
    sources) does to one pair of records: a field of [dst] left at its zero
    value takes the value of the same field of [src]; a field that is set
    is preserved. *)
Definition merge_fields (dst src : Config) : Config :=
  fun field => if isEmptyValue (dst field) then src field else dst field.

(** Modelled from the spec: [mergo.Merge(dst, src)] writes the merged
    record through [dst]; with a nil argument it changes nothing and
    returns an error. *)
Definition mergo_Merge (dst src : loc) (h : Heap) : Heap * option error :=
  match h !! dst, h !! src with
  | Some d, Some s => (<[dst := merge_fields d s]> h, None)
  | _, _ => (h, Some (Errorf "src and dst must be of same type"))
  end.

(** A NETCONF session handle, the result of [NewSession]. *)
Record Session : Type := { session_handle : nat }.

(** ** The world: what the libraries answer *)

Class World : Type := {
  (* net *)
  net_DialContext : Context -> string -> string -> Try NetConn;
  listener_Accept : nat -> Try NetConn;
  (* crypto/tls *)
  tls_Handshake : TLSConn -> option error;
  (* x/crypto/ssh, client side *)
  ssh_Dial : string -> string -> nat -> Try SSHClient;
  ssh_NewClientConn : NetConn -> string -> nat -> Try SSHClient;
  client_NewSession : SSHClient -> Try SSHSession;
  session_RequestSubsystem : SSHSession -> string -> option error;
  (* x/crypto/ssh, server side: the handshake yields the server connection
     and the stream of channel-open requests of the peer *)
  ssh_NewServerConn : NetConn -> nat -> Try (ServerConn * list NewChannel);
  (* Close on any resource *)
  close_result : Handle -> option error;
  (* the session layer: NewSession(ctx, t, cfg), for the transport to the
     given target and the configuration cfg points to in the heap *)
  NewSession : Context -> string -> Heap -> loc -> option Session * option error
}.

Section Primitives.
Context {W : World}.

(** [h.Close()] *)
Definition close (h : Handle) : Go (option error) :=
  run emit (Closed h) ; ret (close_result h).

(** [c.SetDeadline(t)]; every caller discards the result. *)
Definition SetDeadline (c : TLSConn) (t : Time) : Go unit :=
  emit (DeadlineSet c t).

(** [c.Handshake()] *)
Definition DoHandshake (c : TLSConn) : Go (option error) :=
  run emit (Handshake c) ; ret (tls_Handshake c).

(** A [*tls.Conn] seen as an [io.ReadWriteCloser]. *)
Definition tls_rwc (c : TLSConn) : ReadWriteCloser :=
  {| rwc_Close := close (HTLS c) |}.
End Primitives.

(** * Package [server/callhome]: the device role *)

Module servercallhome.

(** The injectable TCP dialer, [NetDialer.DialContext]. *)
Definition NetDialer : Type := Context -> string -> string -> Try NetConn.

(** ** [sshCallhomeConn] *)
Module sshCallhomeConn.

(** The SSH server connection and the session channel that carries the
    netconf subsystem. *)
Record t : Type := {
  conn : ServerConn;
  channel : Channel
}.

Section methods.
Context {W : World}.

(** [Close]: the channel, then the connection; the first error ends the
    method. *)
Definition Close (c : t) : Go (option error) :=
  do e1 <- close (HChannel c.(channel)) ;
  match e1 with
  | Some err => ret (Some err)
  | None =>
      do e2 <- close (HServerConn c.(conn)) ;
      match e2 with
      | Some err => ret (Some err)
      | None => ret None
      end
  end.

(** The struct, in its current state, as an [io.ReadWriteCloser]. *)
Definition rwc (c : t) : ReadWriteCloser := {| rwc_Close := Close c |}.

End methods.
End sshCallhomeConn.

(** ** [SSHDialer] *)
Module SSHDialer.

(** The trace hooks of the [trace] field show up as [Traced] events. *)
Record t : Type := {
  target : string;
  config : nat;
  netDialer : NetDialer
}.

Section methods.
Context {W : World}.

Definition NewSSHDialer (tgt : string) (cfg : nat) : t :=
  {| target := tgt; config := cfg; netDialer := net_DialContext |}.

Definition NewSSHDialerWithOptions (tgt : string) (cfg : nat)
    (custom : option NetDialer) : t :=
  let d := NewSSHDialer tgt cfg in
  match custom with
  | Some nd => {| target := d.(target); config := d.(config); netDialer := nd |}
  | None => d
  end.

Definition Target (d : t) : string := d.(target).

(** [req.Payload[4:]]: Go panics when the slice has fewer than 4 bytes. *)
Definition Payload_from_4 (req : Request) : Go (list byte) :=
  if (length req.(Payload) <? 4)%nat
  then panic "slice bounds out of range"
  else ret (drop 4 req.(Payload)).

(** [req.Type == "subsystem" && string(req.Payload[4:]) == "netconf"];
    the right operand is evaluated only when the left one holds. *)
Definition is_netconf_subsystem (req : Request) : Go bool :=
  if String.eqb req.(Type_) "subsystem" then
    do p <- Payload_from_4 req ;
    ret (String.eqb (String.string_of_list_byte p) "netconf")
  else ret false.

Definition Reply (ch : Channel) (req : Request) (ok : bool) : Go unit :=
  emit (Replied ch req ok).

(** [for r := range requests { _ = r.Reply(false, nil) }] *)
Fixpoint refuse_all (ch : Channel) (requests : list Request) : Go unit :=
  match requests with
  | [] => ret tt
  | r :: rest => run Reply ch r false ; refuse_all ch rest
  end.

(** The goroutine of [handleChannels], run over the whole request stream
    of the channel.  Its value is the boolean it sends on [subsystemChan]
    (a channel with a buffer of one, so the send never blocks).  A panic
    in the goroutine ends the process. *)
Fixpoint serve_requests (ch : Channel) (requests : list Request) : Go bool :=
  match requests with
  | [] => run emit (Sent ch false) ; ret false
  | req :: rest =>
      do found <- is_netconf_subsystem req ;
      if found then
        run Reply ch req true ;
        run emit (Sent ch true) ;
        run refuse_all ch rest ;
        ret true
      else
        run Reply ch req false ;
        serve_requests ch rest
  end.

(** [handleChannels].  The events of the goroutine are listed before those
    of the receiving side; Go does not fix how the replies the goroutine
    sends after a successful [Sent] interleave with the events of the
    receiver. *)
Fixpoint handleChannels (d : t) (sshConn : ServerConn)
    (chans : list NewChannel) : Go (option ReadWriteCloser * option error) :=
  match chans with
  | [] => ret (None, Some (Errorf "callhome: no session channel received"))
  | newChannel :: rest =>
      if negb (String.eqb newChannel.(ChannelType) "session") then
        run emit (Rejected newChannel.(channel) UnknownChannelType "unknown channel type") ;
        handleChannels d sshConn rest
      else
        match newChannel.(Accept) with
        | Failed err =>
            ret (None, Some (Wrap "callhome: failed to accept channel" err))
        | Got requests =>
            run emit (Accepted newChannel.(channel)) ;
            do ok <- serve_requests newChannel.(channel) requests ;
            if negb ok then
              do _ <- close (HChannel newChannel.(channel)) ;
              ret (None, Some (Errorf "callhome: netconf subsystem not requested"))
            else
              run trace (SubsystemReady d.(target)) ;
              ret (Some (sshCallhomeConn.rwc
                           {| sshCallhomeConn.conn := sshConn;
                              sshCallhomeConn.channel := newChannel.(channel) |}),
                   None)
        end
  end.

(** [Dial].  The deferred closure reports the value the variable [err]
    holds when the function returns: the error of the TCP dial or of the
    handshake, and nil once the handshake has succeeded. *)
Definition Dial (d : t) (ctx : Context)
    : Go (option ReadWriteCloser * option error) :=
  run trace (DialStart d.(target)) ;
  match d.(netDialer) ctx "tcp" d.(target) with
  | Failed err =>
      run trace (DialDone d.(target) (Some err)) ;
      ret (None, Some (Wrap "callhome: failed to connect to client" err))
  | Got c =>
      match ssh_NewServerConn c d.(config) with
      | Failed err =>
          do _ <- close (HNet c) ;
          run trace (DialDone d.(target) (Some err)) ;
          ret (None, Some (Wrap "callhome: SSH handshake failed" err))
      | Got (sshConn, chans) =>
          (* go ssh.DiscardRequests(reqs): global requests are dropped *)
          run trace (SSHConnected d.(target)) ;
          do r <- handleChannels d sshConn chans ;
          run trace (DialDone d.(target) None) ;
          ret r
      end
  end.

(** [Close]: a no-op. *)
Definition Close (d : t) : Go (option error) := ret None.

End methods.
End SSHDialer.

(** ** [TLSDialer] *)
Module TLSDialer.

Record t : Type := {
  target : string;
  config : nat;
  netDialer : NetDialer
}.

Section methods.
Context {W : World}.

Definition NewTLSDialer (tgt : string) (cfg : nat) : t :=
  {| target := tgt; config := cfg; netDialer := net_DialContext |}.

Definition NewTLSDialerWithOptions (tgt : string) (cfg : nat)
    (custom : option NetDialer) : t :=
  let d := NewTLSDialer tgt cfg in
  match custom with
  | Some nd => {| target := d.(target); config := d.(config); netDialer := nd |}
  | None => d
  end.

Definition Target (d : t) : string := d.(target).

(** [Dial]: TCP outwards, then the TLS handshake as server. *)
Definition Dial (d : t) (ctx : Context)
    : Go (option ReadWriteCloser * option error) :=
  run trace (DialStart d.(target)) ;
  match d.(netDialer) ctx "tcp" d.(target) with
  | Failed err =>
      run trace (DialDone d.(target) (Some err)) ;
      ret (None, Some (Wrap "callhome: failed to connect to client" err))
  | Got c =>
      let tlsConn := tls_Server c d.(config) in
      run match ctx.(Deadline) with
          | Some deadline => SetDeadline tlsConn deadline
          | None => ret tt
          end ;
      do err <- DoHandshake tlsConn ;
      match err with
      | Some e =>
          do _ <- close (HNet c) ;
          run trace (DialDone d.(target) (Some e)) ;
          ret (None, Some (Wrap "callhome: TLS handshake failed" e))
      | None =>
          run SetDeadline tlsConn zeroTime ;
          run trace (TLSConnected d.(target) tlsConn) ;
          run trace (DialDone d.(target) None) ;
          ret (Some (tls_rwc tlsConn), None)
      end
  end.

(** [Close]: a no-op. *)
Definition Close (d : t) : Go (option error) := ret None.

End methods.
End TLSDialer.

End servercallhome.

(** * Package [client]: dialers, transport, session factory *)

Module client.

(** The [Dialer] interface. *)
Class Dialer (D : Type) : Type := {
  Dial : D -> Context -> Go (option ReadWriteCloser * option error);
  Close : D -> option ReadWriteCloser -> Go (option error);
  Target : D -> string
}.

(** [if err != nil && firstErr == nil { firstErr = err }] *)
Definition first_error (firstErr err : option error) : option error :=
  match err, firstErr with
  | Some e, None => Some e
  | _, _ => firstErr
  end.

(** ** [sshConn]: client and session of a fresh SSH dial *)
Module sshConn.

(** [reader] and [writer] are the pipes of the session, nil until the first
    Read or Write. *)
Record t : Type := {
  client : option SSHClient;
  session : option SSHSession;
  reader : option Pipe;
  writer : option Pipe
}.

Section methods.
Context {W : World}.

(** [Close]: writer, session, client; every one that is set is closed, and
    the first error is the result. *)
Definition Close (c : t) : Go (option error) :=
  let firstErr : option error := None in
  do firstErr <- match c.(writer) with
                 | Some w => do err <- close (HPipe w) ; ret (first_error firstErr err)
                 | None => ret firstErr
                 end ;
  do firstErr <- match c.(session) with
                 | Some s => do err <- close (HSession s) ; ret (first_error firstErr err)
                 | None => ret firstErr
                 end ;
  do firstErr <- match c.(client) with
                 | Some cl => do err <- close (HClient cl) ; ret (first_error firstErr err)
                 | None => ret firstErr
                 end ;
  ret firstErr.

Definition rwc (c : t) : ReadWriteCloser := {| rwc_Close := Close c |}.

End methods.
End sshConn.

(** ** [sshSessionConn]: a session on a client owned by the caller *)
Module sshSessionConn.

Record t : Type := {
  session : option SSHSession;
  reader : option Pipe;
  writer : option Pipe
}.

Section methods.
Context {W : World}.

(** [Close]: writer and session; the struct has no client to close. *)
Definition Close (c : t) : Go (option error) :=
  let firstErr : option error := None in
  do firstErr <- match c.(writer) with
                 | Some w => do err <- close (HPipe w) ; ret (first_error firstErr err)
                 | None => ret firstErr
                 end ;
  do firstErr <- match c.(session) with
                 | Some s => do err <- close (HSession s) ; ret (first_error firstErr err)
                 | None => ret firstErr
                 end ;
  ret firstErr.

Definition rwc (c : t) : ReadWriteCloser := {| rwc_Close := Close c |}.

End methods.
End sshSessionConn.

(** [if conn != nil { return conn.Close() }; return nil], the body of the
    [Close] method of [SSHDialer], [SSHClientDialer] and [TLSDialer]. *)
Definition close_conn (conn : option ReadWriteCloser) : Go (option error) :=
  match conn with
  | Some c => c.(rwc_Close)
  | None => ret None
  end.

(** ** [SSHDialer]: fresh SSH dial *)
Module SSHDialer.

Record t : Type := { target : string; config : nat }.

Section methods.
Context {W : World}.

Definition NewSSHDialer (tgt : string) (cfg : nat) : t :=
  {| target := tgt; config := cfg |}.

Definition Target (d : t) : string := d.(target).

(** [Dial].  The deferred closure reads [err] when the function returns. *)
Definition Dial (d : t) (ctx : Context)
    : Go (option ReadWriteCloser * option error) :=
  run trace (DialStart d.(target)) ;
  match ssh_Dial "tcp" d.(target) d.(config) with
  | Failed err =>
      run trace (DialDone d.(target) (Some err)) ;
      ret (None, Some err)
  | Got client =>
      match client_NewSession client with
      | Failed err =>
          do _ <- close (HClient client) ;
          run trace (DialDone d.(target) (Some err)) ;
          ret (None, Some err)
      | Got session =>
          match session_RequestSubsystem session "netconf" with
          | Some err =>
              do _ <- close (HSession session) ;
              do _ <- close (HClient client) ;
              run trace (DialDone d.(target) (Some err)) ;
              ret (None, Some err)
          | None =>
              run trace (DialDone d.(target) None) ;
              ret (Some (sshConn.rwc
                           {| sshConn.client := Some client;
                              sshConn.session := Some session;
                              sshConn.reader := None;
                              sshConn.writer := None |}),
                   None)
          end
      end
  end.

Definition Close (d : t) (conn : option ReadWriteCloser) : Go (option error) :=
  close_conn conn.

End methods.
End SSHDialer.

(** ** [SSHClientDialer]: a session on an existing SSH client *)
Module SSHClientDialer.

Record t : Type := { client : SSHClient }.

Section methods.
Context {W : World}.

Definition NewSSHClientDialer (c : SSHClient) : t := {| client := c |}.

Definition Target (d : t) : string := d.(client).(client_RemoteAddr).

Definition Dial (d : t) (ctx : Context)
    : Go (option ReadWriteCloser * option error) :=
  match client_NewSession d.(client) with
  | Failed err => ret (None, Some err)
  | Got session =>
      match session_RequestSubsystem session "netconf" with
      | Some err =>
          do _ <- close (HSession session) ;
          ret (None, Some err)
      | None =>
          ret (Some (sshSessionConn.rwc
                       {| sshSessionConn.session := Some session;
                          sshSessionConn.reader := None;
                          sshSessionConn.writer := None |}),
               None)
      end
  end.

Definition Close (d : t) (conn : option ReadWriteCloser) : Go (option error) :=
  close_conn conn.

End methods.
End SSHClientDialer.

(** ** [TLSDialer]: fresh TLS dial *)
Module TLSDialer.

Record t : Type := { target : string; config : nat }.

Section methods.
Context {W : World}.

Definition NewTLSDialer (tgt : string) (cfg : nat) : t :=
  {| target := tgt; config := cfg |}.

Definition Target (d : t) : string := d.(target).

Definition Dial (d : t) (ctx : Context)
    : Go (option ReadWriteCloser * option error) :=
  run trace (DialStart d.(target)) ;
  match net_DialContext ctx "tcp" d.(target) with
  | Failed err =>
      run trace (DialDone d.(target) (Some err)) ;
      ret (None, Some err)
  | Got netConn =>
      let conn := tls_Client netConn d.(config) in
      run match ctx.(Deadline) with
          | Some deadline => SetDeadline conn deadline
          | None => ret tt
          end ;
      do err <- DoHandshake conn ;
      match err with
      | Some e =>
          do _ <- close (HNet netConn) ;
          run trace (DialDone d.(target) (Some e)) ;
          ret (None, Some e)
      | None =>
          run SetDeadline conn zeroTime ;
          run trace (DialDone d.(target) None) ;
          ret (Some (tls_rwc conn), None)
      end
  end.

Definition Close (d : t) (conn : option ReadWriteCloser) : Go (option error) :=
  close_conn conn.

End methods.
End TLSDialer.

(** ** [TLSConnDialer]: an existing TLS connection *)
Module TLSConnDialer.

Record t : Type := { conn : TLSConn }.

Section methods.
Context {W : World}.

Definition NewTLSConnDialer (c : TLSConn) : t := {| conn := c |}.

Definition Target (d : t) : string := d.(conn).(raw).(RemoteAddr).

(** [Dial] hands out the stored connection. *)
Definition Dial (d : t) (ctx : Context)
    : Go (option ReadWriteCloser * option error) :=
  ret (Some (tls_rwc d.(conn)), None).

(** [Close] leaves the connection alone. *)
Definition Close (d : t) (c : option ReadWriteCloser) : Go (option error) :=
  ret None.

End methods.
End TLSConnDialer.

Section instances.
Context {W : World}.

#[global] Instance SSHDialer_Dialer : Dialer SSHDialer.t :=
  {| Dial := SSHDialer.Dial; Close := SSHDialer.Close; Target := SSHDialer.Target |}.

#[global] Instance SSHClientDialer_Dialer : Dialer SSHClientDialer.t :=
  {| Dial := SSHClientDialer.Dial; Close := SSHClientDialer.Close;
     Target := SSHClientDialer.Target |}.

#[global] Instance TLSDialer_Dialer : Dialer TLSDialer.t :=
  {| Dial := TLSDialer.Dial; Close := TLSDialer.Close; Target := TLSDialer.Target |}.

#[global] Instance TLSConnDialer_Dialer : Dialer TLSConnDialer.t :=
  {| Dial := TLSConnDialer.Dial; Close := TLSConnDialer.Close;
     Target := TLSConnDialer.Target |}.

End instances.

(** ** [transportImpl]: the transport over any [Dialer] *)
Module transportImpl.

Record t (D : Type) : Type := {
  conn : option ReadWriteCloser;
  target : string;
  dialer : D
}.
Arguments conn {D} _.
Arguments target {D} _.
Arguments dialer {D} _.

Section methods.
Context {W : World} {D : Type} {DD : Dialer D}.

Definition Target (tr : t D) : string := tr.(target).

(** [Close].  [defer t.trace.ConnectionClosed(t.target, err)] evaluates the
    arguments of the call when the [defer] statement runs, that is before
    the body: the hook is called on return with the value [err] had then. *)
Definition Close (tr : t D) : Go (option error) :=
  let err : option error := None in
  let deferred := trace (ConnectionClosed tr.(target) err) in
  do err <- match tr.(conn) with
            | Some c => Close tr.(dialer) (Some c)
            | None => ret err
            end ;
  run deferred ;
  ret err.

End methods.
End transportImpl.

Section factory.
Context {W : World} {D : Type} {DD : Dialer D}.

(** [NewTransport].  The two deferred closures run on return, the one
    registered last first: a connection that came with an error is closed
    through the dialer, then [ConnectDone] reports [err]. *)
Definition NewTransport (ctx : Context) (dialer : D)
    : Go (Try (transportImpl.t D)) :=
  let target := Target dialer in
  run trace (ConnectStart target) ;
  do r <- Dial dialer ctx ;
  let conn := r.1 in
  let err := r.2 in
  run match err, conn with
      | Some _, Some c => do _ <- Close dialer (Some c) ; ret tt
      | _, _ => ret tt
      end ;
  run trace (ConnectDone target err) ;
  match err with
  | Some e => ret (Failed e)
  | None =>
      ret (Got {| transportImpl.conn := conn;
                  transportImpl.target := target;
                  transportImpl.dialer := dialer |})
  end.

(** Modelled from the spec: the variable [DefaultConfig], declared in a
    file that is not among the sources, is the address of the process-wide
    default configuration. *)
Definition DefaultConfig : loc := 1%positive.

(** [NewRPCSessionFromDialer].  [resolvedConfig := *cfg] copies the record
    [cfg] points to into a new variable, whose address is passed to
    [mergo.Merge] and to [NewSession]; a nil [cfg] panics.  The result is
    the heap on return and the pair [(s, err)]. *)
Definition NewRPCSessionFromDialer (ctx : Context) (dialer : D) (cfg : loc)
    (h : Heap) : Go (Heap * (option Session * option error)) :=
  match h !! cfg with
  | None => panic "invalid memory address or nil pointer dereference"
  | Some c =>
      let resolvedConfig := fresh (dom h) in
      let h := <[resolvedConfig := c]> h in
      run emit (Merged resolvedConfig DefaultConfig) ;
      let h := (mergo_Merge resolvedConfig DefaultConfig h).1 in
      do r <- NewTransport ctx dialer ;
      match r with
      | Failed err => ret (h, (None, Some err))
      | Got tr =>
          let r := NewSession ctx tr.(transportImpl.target) h resolvedConfig in
          let s := r.1 in
          let err := r.2 in
          run match err with
              | Some _ => do _ <- transportImpl.Close tr ; ret tt
              | None => ret tt
              end ;
          ret (h, (s, err))
      end
  end.

(** [NewRPCSessionFromDialerWithDefaults] *)
Definition NewRPCSessionFromDialerWithDefaults (ctx : Context) (dialer : D)
    (h : Heap) : Go (Heap * (option Session * option error)) :=
  NewRPCSessionFromDialer ctx dialer DefaultConfig h.

End factory.

End client.

(** * Package [client/callhome]: the manager role *)

Module clientcallhome.

(** ** [sshCallhomeConn] *)
Module sshCallhomeConn.

Record t : Type := {
  client : SSHClient;
  session : SSHSession;
  reader : option Pipe;
  writer : option Pipe
}.

Section methods.
Context {W : World}.

(** [Close]: writer if set, session, client; the first error ends the
    method. *)
Definition Close (c : t) : Go (option error) :=
  do e0 <- match c.(writer) with
           | Some w => close (HPipe w)
           | None => ret None
           end ;
  match e0 with
  | Some err => ret (Some err)
  | None =>
      do e1 <- close (HSession c.(session)) ;
      match e1 with
      | Some err => ret (Some err)
      | None =>
          do e2 <- close (HClient c.(client)) ;
          match e2 with
          | Some err => ret (Some err)
          | None => ret None
          end
      end
  end.

Definition rwc (c : t) : ReadWriteCloser := {| rwc_Close := Close c |}.

End methods.
End sshCallhomeConn.

(** ** [SSHListener] *)
Module SSHListener.

Record t : Type := { listener : nat; config : nat }.

Section methods.
Context {W : World}.

(** [Accept]: TCP accept, then SSH as client, a session, the netconf
    subsystem. *)
Definition Accept (l : t) (ctx : Context)
    : Go (option ReadWriteCloser * option error) :=
  match listener_Accept l.(listener) with
  | Failed err =>
      run trace (AcceptDone None (Some err)) ;
      ret (None, Some (Wrap "callhome: accept failed" err))
  | Got conn =>
      run trace (AcceptDone (Some conn) None) ;
      match ssh_NewClientConn conn conn.(RemoteAddr) l.(config) with
      | Failed err =>
          do _ <- close (HNet conn) ;
          ret (None, Some (Wrap "callhome: SSH client handshake failed" err))
      | Got client =>
          run trace (SSHConnected conn.(RemoteAddr)) ;
          match client_NewSession client with
          | Failed err =>
              do _ <- close (HClient client) ;
              ret (None, Some (Wrap "callhome: failed to create SSH session" err))
          | Got session =>
              match session_RequestSubsystem session "netconf" with
              | Some err =>
                  do _ <- close (HSession session) ;
                  do _ <- close (HClient client) ;
                  ret (None, Some (Wrap "callhome: failed to request netconf subsystem" err))
              | None =>
                  run trace (SubsystemReady conn.(RemoteAddr)) ;
                  ret (Some (sshCallhomeConn.rwc
                               {| sshCallhomeConn.client := client;
                                  sshCallhomeConn.session := session;
                                  sshCallhomeConn.reader := None;
                                  sshCallhomeConn.writer := None |}),
                       None)
              end
          end
      end
  end.

End methods.
End SSHListener.

(** ** [SSHConnDialer]: an established Call Home SSH connection *)
Module SSHConnDialer.

Record t : Type := { conn : ReadWriteCloser; addr : string }.

Definition NewSSHConnDialer (c : ReadWriteCloser) (remoteAddr : string) : t :=
  {| conn := c; addr := remoteAddr |}.

Definition Target (d : t) : string := d.(addr).

(** [Dial] returns the pre-established connection. *)
Definition Dial (d : t) (ctx : Context)
    : Go (option ReadWriteCloser * option error) :=
  ret (Some d.(conn), None).

(** [Close] is a no-op. *)
Definition Close (d : t) (c : option ReadWriteCloser) : Go (option error) :=
  ret None.

End SSHConnDialer.

(** ** [TLSListener] *)
Module TLSListener.

Record t : Type := { listener : nat; config : nat }.

Section methods.
Context {W : World}.

(** [Accept]: TCP accept, then the TLS handshake as client. *)
Definition Accept (l : t) (ctx : Context) : Go (option TLSConn * option error) :=
  match listener_Accept l.(listener) with
  | Failed err =>
      run trace (AcceptDone None (Some err)) ;
      ret (None, Some (Wrap "callhome: accept failed" err))
  | Got conn =>
      run trace (AcceptDone (Some conn) None) ;
      let tlsConn := tls_Client conn l.(config) in
      run match ctx.(Deadline) with
          | Some deadline => SetDeadline tlsConn deadline
          | None => ret tt
          end ;
      do err <- DoHandshake tlsConn ;
      match err with
      | Some e =>
          do _ <- close (HNet conn) ;
          ret (None, Some (Wrap "callhome: TLS handshake failed" e))
      | None =>
          run SetDeadline tlsConn zeroTime ;
          run trace (TLSConnected conn.(RemoteAddr) tlsConn) ;
          ret (Some tlsConn, None)
      end
  end.

End methods.
End TLSListener.

(** ** [TLSConnDialer]: an established Call Home TLS connection *)
Module TLSConnDialer.

Record t : Type := { conn : TLSConn }.

Section methods.
Context {W : World}.

Definition NewTLSConnDialer (c : TLSConn) : t := {| conn := c |}.

Definition Target (d : t) : string := d.(conn).(raw).(RemoteAddr).

(** [Dial] returns the pre-established connection. *)
Definition Dial (d : t) (ctx : Context)
    : Go (option ReadWriteCloser * option error) :=
  ret (Some (tls_rwc d.(conn)), None).

(** [Close] is a no-op. *)
Definition Close (d : t) (c : option ReadWriteCloser) : Go (option error) :=
  ret None.

End methods.
End TLSConnDialer.

Section instances.
Context {W : World}.

#[global] Instance SSHConnDialer_Dialer : client.Dialer SSHConnDialer.t :=
  {| client.Dial := SSHConnDialer.Dial; client.Close := SSHConnDialer.Close;
     client.Target := SSHConnDialer.Target |}.

#[global] Instance TLSConnDialer_Dialer : client.Dialer TLSConnDialer.t :=
  {| client.Dial := TLSConnDialer.Dial; client.Close := TLSConnDialer.Close;
     client.Target := TLSConnDialer.Target |}.

End instances.

End clientcallhome.

(** * Vocabulary of the statements *)

(** A "subsystem" request whose payload, from offset 4 on, is "netconf". *)
Definition names_netconf (req : Request) : bool :=
  String.eqb req.(Type_) "subsystem"
  && (4 <=? length req.(Payload))%nat
  && String.eqb (String.string_of_list_byte (drop 4 req.(Payload))) "netconf".

(** A "subsystem" request whose payload has fewer than 4 bytes. *)
Definition short_subsystem (req : Request) : bool :=
  String.eqb req.(Type_) "subsystem" && (length req.(Payload) <? 4)%nat.

(** Any other request. *)
Definition other_request (req : Request) : bool :=
  negb (names_netconf req) && negb (short_subsystem req).

(** [Reply(false, nil)] to each request of a list, in order. *)
Definition refusals (ch : Channel) (requests : list Request) : list Event :=
  map (fun r => Replied ch r false) requests.

(** [Reject(UnknownChannelType, "unknown channel type")] for each
    channel-open request of a list, in order. *)
Definition rejections (chans : list NewChannel) : list Event :=
  map (fun c => Rejected c.(channel) UnknownChannelType "unknown channel type") chans.

Definition is_session (c : NewChannel) : bool :=
  String.eqb c.(ChannelType) "session".

(** [Close] on each handle of a list that is set, in order. *)
Definition closes (hs : list (option Handle)) : list Event :=
  Closed <$> omap id hs.

(** How many times [mergo.Merge] is called in a trace. *)
Definition is_merge (e : Event) : bool :=
  match e with
  | Merged _ _ => true
  | _ => false
  end.
Definition merges (tr : list Event) : nat := length (List.filter is_merge tr).

(** The heap after [resolvedConfig := *cfg] and
    [mergo.Merge(&resolvedConfig, DefaultConfig)], where [c] is the record
    [cfg] points to and the new variable lives at the next free address. *)
Definition resolved_heap (h : Heap) (c : Config) : Heap :=
  (mergo_Merge (fresh (dom h)) client.DefaultConfig (<[fresh (dom h) := c]> h)).1.
Arguments resolved_heap : simpl never.

(** [e1] occurs in the trace, and [e2] occurs later. *)
Definition precedes (e1 e2 : Event) (tr : list Event) : Prop :=
  exists t1 t2 t3, tr = t1 ++ e1 :: t2 ++ e2 :: t3.

(** * A sample world *)

(** One world in which every library call can be made to succeed or fail
    by the choice of its arguments; the theorems are run in it below. *)
Module sample.

Definition tcp (id : nat) (addr : string) : NetConn :=
  {| conn_id := id; RemoteAddr := addr |}.

Definition subsystem_request (payload : list byte) : Request :=
  {| Type_ := "subsystem"; WantReply := true; Payload := payload |}.

(** The wire form of an SSH string: four length bytes, then the name. *)
Definition netconf_payload : list byte :=
  [x00; x00; x00; x07] ++ String.list_byte_of_string "netconf".
Definition sftp_payload : list byte :=
  [x00; x00; x00; x04] ++ String.list_byte_of_string "sftp".

(** A "subsystem" request that carries three bytes only. *)
Definition short_request : Request := subsystem_request [x00; x00; x00].

Definition env_request : Request :=
  {| Type_ := "env"; WantReply := false; Payload := [] |}.

Definition x11_channel : NewChannel :=
  {| ChannelType := "x11"; channel := {| chan_id := 5 |}; Accept := Got [] |}.

Definition session_channel (requests : list Request) : NewChannel :=
  {| ChannelType := "session"; channel := {| chan_id := 0 |};
     Accept := Got requests |}.

Definition peer_channels : list NewChannel :=
  [x11_channel;
   session_channel [env_request; subsystem_request netconf_payload; env_request]].

Definition world : World := {|
  net_DialContext := fun _ _ address =>
    if String.eqb address "unreachable:830" then Failed (LibError 1)
    else Got (tcp 7 address);
  listener_Accept := fun l =>
    match l with
    | O => Failed (LibError 2)
    | S _ => Got (tcp l "device:49152")
    end;
  tls_Handshake := fun c =>
    match c.(tls_config) with
    | O => Some (LibError 3)
    | S _ => None
    end;
  ssh_Dial := fun _ address cfg =>
    match cfg with
    | O => Failed (LibError 4)
    | S _ => Got {| client_id := cfg; client_RemoteAddr := address |}
    end;
  ssh_NewClientConn := fun _ address cfg =>
    match cfg with
    | O => Failed (LibError 4)
    | S _ => Got {| client_id := cfg; client_RemoteAddr := address |}
    end;
  client_NewSession := fun c =>
    match c.(client_id) with
    | 1 => Failed (LibError 5)
    | n => Got {| session_id := n |}
    end;
  session_RequestSubsystem := fun s _ =>
    match s.(session_id) with
    | 2 => Some (LibError 6)
    | _ => None
    end;
  ssh_NewServerConn := fun _ cfg =>
    match cfg with
    | O => Failed (LibError 4)
    | 1 => Got ({| serverconn_id := 1 |}, [x11_channel])
    | 3 => Got ({| serverconn_id := 3 |}, [session_channel [short_request]])
    | S _ => Got ({| serverconn_id := cfg |}, peer_channels)
    end;
  close_result := fun h =>
    match h with
    | HSession {| session_id := 4 |} => Some (LibError 7)
    | _ => None
    end;
  NewSession := fun _ address _ _ =>
    if String.eqb address "mute:830" then (None, Some (LibError 8))
    else (Some {| session_handle := 1 |}, None)
|}.

(** A heap with the default configuration and one of a caller, who sets
    the name of the session and leaves the timeout at zero. *)
Definition default_config : Config := fun field =>
  if String.eqb field "SetupTimeoutSecs" then VInt 5 else VInt 0.
Definition caller_config : Config := fun field =>
  if String.eqb field "Name" then VString "lab" else VInt 0.
Definition caller_cfg : loc := 2%positive.
Definition heap : Heap :=
  <[caller_cfg := caller_config]> {[client.DefaultConfig := default_config]}.

Definition background : Context := {| Deadline := None; Err := None |}.
Definition with_deadline : Context := {| Deadline := Some 1700000000%Z; Err := None |}.
Definition cancelled : Context :=
  {| Deadline := Some 1%Z; Err := Some (Errorf "context canceled") |}.

End sample.

(** * Further code of the packages *)

(** ** [RealDialer], the older SSH client factory of [session_factory_ssh.go] *)
Module RealDialer.

Record t : Type := { target : string; config : nat }.

Section methods.
Context {W : World}.

Definition NewDialer (tgt : string) (clientConfig : nat) : t :=
  {| target := tgt; config := clientConfig |}.

(** [Dial].  The function declares a variable [err] for the deferred
    closure and never assigns it: [return ssh.Dial(...)] sets the results
    of the function, not that variable. *)
Definition Dial (rd : t) (ctx : Context) : Go (option SSHClient * option error) :=
  run trace (DialStart rd.(target)) ;
  let err : option error := None in
  let r := match ssh_Dial "tcp" rd.(target) rd.(config) with
           | Got cl => (Some cl, None)
           | Failed e => (None, Some e)
           end in
  run trace (DialDone rd.(target) err) ;
  ret r.

(** [Close]: [if cli != nil { return cli.Close() }; return nil]. *)
Definition Close (rd : t) (cli : option SSHClient) : Go (option error) :=
  match cli with
  | Some c => close (HClient c)
  | None => ret None
  end.

End methods.
End RealDialer.

(** ** [Read] and [Write] of [sshConn]: the pipes of the session *)

(** What the session and its pipes answer. *)
Class Pipes : Type := {
  session_StdoutPipe : SSHSession -> Try Pipe;
  session_StdinPipe : SSHSession -> Try Pipe;
  (* reader.Read(p) for a buffer of the given length *)
  pipe_Read : Pipe -> nat -> nat * option error;
  (* writer.Write(p) *)
  pipe_Write : Pipe -> list byte -> nat * option error
}.

Module sshConn_io.

Section methods.
Context {P : Pipes}.

Definition set_reader (c : client.sshConn.t) (r : Pipe) : client.sshConn.t :=
  {| client.sshConn.client := c.(client.sshConn.client);
     client.sshConn.session := c.(client.sshConn.session);
     client.sshConn.reader := Some r;
     client.sshConn.writer := c.(client.sshConn.writer) |}.

Definition set_writer (c : client.sshConn.t) (w : Pipe) : client.sshConn.t :=
  {| client.sshConn.client := c.(client.sshConn.client);
     client.sshConn.session := c.(client.sshConn.session);
     client.sshConn.reader := c.(client.sshConn.reader);
     client.sshConn.writer := Some w |}.

(** [Read]: the struct after the call, and [(n, err)].  A nil session
    panics when its pipe is asked for. *)
Definition Read (c : client.sshConn.t) (p : nat)
    : Res (client.sshConn.t * (nat * option error)) :=
  match c.(client.sshConn.reader) with
  | Some r => Done (c, pipe_Read r p)
  | None =>
      match c.(client.sshConn.session) with
      | None => Panic "invalid memory address or nil pointer dereference"
      | Some s =>
          match session_StdoutPipe s with
          | Failed err => Done (c, (0, Some err))
          | Got r => Done (set_reader c r, pipe_Read r p)
          end
      end
  end.

(** [Write] *)
Definition Write (c : client.sshConn.t) (p : list byte)
    : Res (client.sshConn.t * (nat * option error)) :=
  match c.(client.sshConn.writer) with
  | Some w => Done (c, pipe_Write w p)
  | None =>
      match c.(client.sshConn.session) with
      | None => Panic "invalid memory address or nil pointer dereference"
      | Some s =>
          match session_StdinPipe s with
          | Failed err => Done (c, (0, Some err))
          | Got w => Done (set_writer c w, pipe_Write w p)
          end
      end
  end.

(** A sequence of [Read] calls with buffers of the given lengths: the
    struct after the last one and the results, in order. *)
Fixpoint read_all (c : client.sshConn.t) (ps : list nat)
    : Res (client.sshConn.t * list (nat * option error)) :=
  match ps with
  | [] => Done (c, [])
  | p :: ps =>
      match Read c p with
      | Panic msg => Panic msg
      | Done (c', r) =>
          match read_all c' ps with
          | Panic msg => Panic msg
          | Done (c'', rs) => Done (c'', r :: rs)
          end
      end
  end.

(** A sequence of [Write] calls. *)
Fixpoint write_all (c : client.sshConn.t) (ps : list (list byte))
    : Res (client.sshConn.t * list (nat * option error)) :=
  match ps with
  | [] => Done (c, [])
  | p :: ps =>
      match Write c p with
      | Panic msg => Panic msg
      | Done (c', r) =>
          match write_all c' ps with
          | Panic msg => Panic msg
          | Done (c'', rs) => Done (c'', r :: rs)
          end
      end
  end.

End methods.
End sshConn_io.

(** ** Package [server/tls]: the plain TLS server *)
Module tlsserver.

(** A [net.Conn] handed out by the listener: a [*tls.Conn] or not. *)
Inductive Incoming : Type :=
| IsTLS (c : TLSConn)
| NotTLS (c : NetConn).

Definition handle_of (conn : Incoming) : Handle :=
  match conn with
  | IsTLS c => HTLS c
  | NotTLS c => HNet c
  end.

(** The hooks of [tls.Trace] the server calls. *)
Inductive Hook : Type :=
| Listened (address : string) (err : option error)
| StartAccepting
| Accepted (conn : option Incoming) (err : option error)
| TLSHandshake (conn : Incoming) (err : option error).

Inductive Event : Type :=
| Traced (h : Hook)
| Closed (h : Handle)                 (* Close() on a connection *)
| Handled (c : TLSConn).              (* factory(c).Handle(c) runs *)

Record Server : Type := { listener : nat }.

Section methods.
Context {W : World}.

(** The loop of [acceptConnections], over what the successive calls of
    [listener.Accept()] return.  When the list is used up [Accept] blocks
    and nothing more happens.  The goroutine started for a connection runs
    the handler and then closes the connection; its events are listed where
    it is started. *)
Fixpoint accept_loop (accepts : list (Try Incoming)) : list Event :=
  match accepts with
  | [] => []
  | Failed err :: _ => [Traced (Accepted None (Some err))]
  | Got conn :: rest =>
      Traced (Accepted (Some conn) None) ::
      match conn with
      | NotTLS c =>
          Traced (TLSHandshake conn (Some (Errorf "connection is not TLS")))
            :: Closed (HNet c) :: accept_loop rest
      | IsTLS c =>
          match tls_Handshake c with
          | Some err =>
              Traced (TLSHandshake conn (Some err))
                :: Closed (HTLS c) :: accept_loop rest
          | None =>
              Traced (TLSHandshake conn None)
                :: Handled c :: Closed (HTLS c) :: accept_loop rest
          end
      end
  end.

Definition acceptConnections (accepts : list (Try Incoming)) : list Event :=
  Traced StartAccepting :: accept_loop accepts.

(** [NewServer], for what [tls.Listen] returns and what the listener will
    accept: the events, those of the accepting goroutine included, and the
    pair [(server, err)]. *)
Definition NewServer (address : string) (listen : Try nat)
    (accepts : list (Try Incoming)) : list Event * (option Server * option error) :=
  match listen with
  | Failed err => ([Traced (Listened address (Some err))], (None, Some err))
  | Got l =>
      (Traced (Listened address None) :: acceptConnections accepts,
       (Some {| listener := l |}, None))
  end.

(** The connections that reach a handler: the TLS connections whose
    handshake succeeds. *)
Fixpoint served (conns : list Incoming) : list TLSConn :=
  match conns with
  | [] => []
  | IsTLS c :: conns =>
      match tls_Handshake c with
      | None => c :: served conns
      | Some _ => served conns
      end
  | NotTLS _ :: conns => served conns
  end.

End methods.

(** The connections accepted before the first failing [Accept]. *)
Fixpoint accepted (accepts : list (Try Incoming)) : list Incoming :=
  match accepts with
  | Got conn :: rest => conn :: accepted rest
  | _ => []
  end.

(** The handles closed in a trace, and the connections handled, in order. *)
Fixpoint closed_handles (tr : list Event) : list Handle :=
  match tr with
  | [] => []
  | Closed h :: tr => h :: closed_handles tr
  | _ :: tr => closed_handles tr
  end.

Fixpoint handled (tr : list Event) : list TLSConn :=
  match tr with
  | [] => []
  | Handled c :: tr => c :: handled tr
  | _ :: tr => handled tr
  end.

End tlsserver.

(** ** The trace carried by a context ([trace.go] of the three packages) *)
Module tracectx.

(** The keys under which values are attached to a context: each package
    has a key of an unexported type of its own. *)
Inductive Key : Type :=
| traceKey
| otherKey (n : nat).

Section trace_type.
(** The [Trace] records of one package, and its [noOpTrace]. *)
Context {Trace : Type} (noOpTrace : Trace).

(** A value attached to a context: a [*Trace], possibly nil, or a value of
    another type. *)
Inductive Val : Type :=
| TracePtr (t : option Trace)
| OtherVal (n : nat).

(** [context.Context] as far as values go. *)
Inductive context : Type :=
| Background
| WithValue (parent : context) (key : Key) (val : Val).

Definition Key_eqb (k1 k2 : Key) : bool :=
  match k1, k2 with
  | traceKey, traceKey => true
  | otherKey n, otherKey m => Nat.eqb n m
  | _, _ => false
  end.

(** [ctx.Value(key)]: the value attached nearest, or nil. *)
Fixpoint Value (ctx : context) (key : Key) : option Val :=
  match ctx with
  | Background => None
  | WithValue parent k v => if Key_eqb k key then Some v else Value parent key
  end.

(** [WithTrace] *)
Definition WithTrace (ctx : context) (trace : option Trace) : context :=
  WithValue ctx traceKey (TracePtr trace).

(** [ContextTrace] of the two callhome packages:
    the value under the key, asserted to be a [*Trace], is returned when
    the assertion holds and the pointer is not nil; [noOpTrace] otherwise.
    A nil context panics on the method call. *)
Definition ContextTrace (ctx : option context) : Res Trace :=
  match ctx with
  | None => Panic "invalid memory address or nil pointer dereference"
  | Some c =>
      match Value c traceKey with
      | Some (TracePtr (Some trace)) => Done trace
      | _ => Done noOpTrace
      end
  end.

(** [ContextTLSTrace] of package [server/tls], which looks at [ctx == nil]
    first. *)
Definition ContextTLSTrace (ctx : option context) : Trace :=
  match ctx with
  | None => noOpTrace
  | Some c =>
      match Value c traceKey with
      | Some (TracePtr (Some trace)) => trace
      | _ => noOpTrace
      end
  end.

(** Values attached under other keys, outermost last. *)
Fixpoint with_values (ctx : context) (bindings : list (nat * Val)) : context :=
  match bindings with
  | [] => ctx
  | (n, v) :: rest => with_values (WithValue ctx (otherKey n) v) rest
  end.

End trace_type.
End tracectx.

(** ** More vocabulary *)

(** The trace hooks called in a trace, in order. *)
Fixpoint hooks (tr : list Event) : list Hook :=
  match tr with
  | [] => []
  | Traced h :: tr => h :: hooks tr
  | _ :: tr => hooks tr
  end.

(** The requests replied to in a trace, in order, and the number of
    requests granted. *)
Fixpoint replied_requests (tr : list Event) : list Request :=
  match tr with
  | [] => []
  | Replied _ req _ :: tr => req :: replied_requests tr
  | _ :: tr => replied_requests tr
  end.

Fixpoint grants (tr : list Event) : nat :=
  match tr with
  | [] => 0
  | Replied _ _ true :: tr => S (grants tr)
  | _ :: tr => grants tr
  end.

(** The values sent on [subsystemChan] in a trace. *)
Fixpoint sent_values (tr : list Event) : list bool :=
  match tr with
  | [] => []
  | Sent _ v :: tr => v :: sent_values tr
  | _ :: tr => sent_values tr
  end.

(** An event of the channel negotiation: it touches channels and requests
    only, no connection. *)
Definition negotiation_event (e : Event) : bool :=
  match e with
  | Rejected _ _ _ | Accepted _ | Replied _ _ _ | Sent _ _ => true
  | Closed (HChannel _) => true
  | Traced (SubsystemReady _) => true
  | _ => false
  end.

(** The first error among the results of closing the handles that are
    set, in order. *)
Fixpoint first_failure {W : World} (hs : list (option Handle)) : option error :=
  match hs with
  | [] => None
  | None :: hs => first_failure hs
  | Some h :: hs =>
      match close_result h with
      | Some e => Some e
      | None => first_failure hs
      end
  end.

(** ** More of the sample world *)
Module sample_io.

(** Pipes: the session with id 0 refuses its pipes; a read fills the
    buffer, a write takes everything. *)
Definition pipes : Pipes := {|
  session_StdoutPipe := fun s =>
    match s.(session_id) with
    | O => Failed (LibError 10)
    | S _ => Got {| pipe_id := 1 |}
    end;
  session_StdinPipe := fun s =>
    match s.(session_id) with
    | O => Failed (LibError 11)
    | S _ => Got {| pipe_id := 2 |}
    end;
  pipe_Read := fun _ n => (n, None);
  pipe_Write := fun _ p => (length p, None)
|}.

(** The connection of a fresh SSH dial, before any read or write. *)
Definition fresh_conn (id : nat) : client.sshConn.t :=
  {| client.sshConn.client := Some {| client_id := id; client_RemoteAddr := "device:830" |};
     client.sshConn.session := Some {| session_id := id |};
     client.sshConn.reader := None;
     client.sshConn.writer := None |}.

(** A dialer, as a test double would be written, whose [Dial] returns a
    connection together with an error, and whose [Close] closes what it is
    given. *)
Record half_dialer : Type := { half_target : string }.

Definition half_conn {W : World} : ReadWriteCloser :=
  {| rwc_Close := close (HOther 1) |}.

#[global] Instance half_dialer_Dialer {W : World} : client.Dialer half_dialer := {|
  client.Dial := fun _ _ => ret (Some half_conn, Some (LibError 12));
  client.Close := fun _ conn => client.close_conn conn;
  client.Target := half_target
|}.

End sample_io.

(** Closing the handles of a list in order, up to the first [Close] that
    returns an error, which is the result. *)
Fixpoint close_until_error {W : World} (hs : list Handle) : Go (option error) :=
  match hs with
  | [] => ret None
  | h :: hs =>
      do e <- close h ;
      match e with
      | Some err => ret (Some err)
      | None => close_until_error hs
      end
  end.

(** * Facts *)

(** ** The monad *)

Lemma bind_ret_l {A B} (a : A) (k : A -> Go B) : bind (ret a) k = k a.
Proof. unfold bind, ret. simpl. by destruct (k a). Qed.

Lemma bind_done {A B} (k : A -> Go B) t a :
  bind (t, Done a) k = (t ++ events (k a), outcome (k a)).
Proof. reflexivity. Qed.

Lemma bind_panic {A B} (k : A -> Go B) t msg :
  bind (t, Panic msg) k = (t, Panic msg).
Proof. reflexivity. Qed.

Lemma go_eta {A} (m : Go A) : (events m, outcome m) = m.
Proof. by destruct m. Qed.

(** ** The SSH negotiation of the Call Home device *)

Section servercallhome_ssh.
Context {W : World}.
Import servercallhome.

Lemma is_netconf_subsystem_short req :
  short_subsystem req = true ->
  SSHDialer.is_netconf_subsystem req = ([], Panic "slice bounds out of range").
Proof.
  unfold short_subsystem, SSHDialer.is_netconf_subsystem, SSHDialer.Payload_from_4.
  intros [-> ->]%andb_true_iff. reflexivity.
Qed.

Lemma is_netconf_subsystem_total req :
  short_subsystem req = false ->
  SSHDialer.is_netconf_subsystem req = ([], Done (names_netconf req)).
Proof.
  unfold short_subsystem, SSHDialer.is_netconf_subsystem,
    SSHDialer.Payload_from_4, names_netconf.
  destruct (String.eqb (Type_ req) "subsystem"); [|done].
  cbn [andb]. intros Hlen. rewrite Hlen.
  apply Nat.ltb_ge, Nat.leb_le in Hlen. by rewrite Hlen.
Qed.

Lemma names_netconf_not_short req :
  names_netconf req = true -> short_subsystem req = false.
Proof.
  unfold names_netconf, short_subsystem.
  intros [[-> Hlen]%andb_true_iff _]%andb_true_iff. simpl.
  apply Nat.ltb_ge. by apply Nat.leb_le.
Qed.

Lemma refuse_all_spec ch requests :
  SSHDialer.refuse_all ch requests = (refusals ch requests, Done tt).
Proof.
  induction requests as [|r rest IH]; [done|].
  simpl. unfold SSHDialer.Reply, emit. simpl. by rewrite IH.
Qed.

(** The goroutine skips over requests that are neither netconf subsystem
    requests nor short subsystem requests, refusing each. *)
Lemma serve_requests_app ch before rest :
  forallb other_request before = true ->
  SSHDialer.serve_requests ch (before ++ rest)
  = (refusals ch before ++ events (SSHDialer.serve_requests ch rest),
     outcome (SSHDialer.serve_requests ch rest)).
Proof.
  induction before as [|r before IH]; simpl.
  - intros _. by rewrite go_eta.
  - intros [[Hn Hs]%andb_true_iff Hrest]%andb_true_iff.
    apply negb_true_iff in Hn, Hs.
    rewrite (is_netconf_subsystem_total _ Hs), Hn. simpl.
    rewrite (IH Hrest). reflexivity.
Qed.

(** No netconf subsystem request before the stream ends: every request is
    refused and [false] is sent. *)
Lemma serve_requests_exhausted ch requests :
  forallb other_request requests = true ->
  SSHDialer.serve_requests ch requests
  = (refusals ch requests ++ [Sent ch false], Done false).
Proof.
  intros Hall. rewrite <- (app_nil_r requests) at 1.
  by rewrite (serve_requests_app _ _ _ Hall).
Qed.

(** The first netconf subsystem request is granted, [true] is sent, and
    every later request is refused, a second netconf request included. *)
Lemma serve_requests_granted ch before req after :
  forallb other_request before = true ->
  names_netconf req = true ->
  SSHDialer.serve_requests ch (before ++ req :: after)
  = (refusals ch before ++ Replied ch req true :: Sent ch true :: refusals ch after,
     Done true).
Proof.
  intros Hall Hreq. rewrite (serve_requests_app _ _ _ Hall). simpl.
  rewrite (is_netconf_subsystem_total _ (names_netconf_not_short _ Hreq)), Hreq.
  simpl. rewrite refuse_all_spec. simpl. by rewrite app_nil_r.
Qed.

(** A short subsystem request stops the goroutine with a panic: it gets no
    reply, nothing is sent, and no later request is served. *)
Lemma serve_requests_short ch before req after :
  forallb other_request before = true ->
  short_subsystem req = true ->
  SSHDialer.serve_requests ch (before ++ req :: after)
  = (refusals ch before, Panic "slice bounds out of range").
Proof.
  intros Hall Hreq. rewrite (serve_requests_app _ _ _ Hall). simpl.
  rewrite (is_netconf_subsystem_short _ Hreq). simpl. by rewrite app_nil_r.
Qed.

(** Channel-open requests of another type than "session" are rejected one
    by one and the loop goes on with the rest of the stream. *)
Lemma handleChannels_app d sshConn pre rest :
  forallb (fun c => negb (is_session c)) pre = true ->
  SSHDialer.handleChannels d sshConn (pre ++ rest)
  = (rejections pre ++ events (SSHDialer.handleChannels d sshConn rest),
     outcome (SSHDialer.handleChannels d sshConn rest)).
Proof.
  induction pre as [|c pre IH]; simpl.
  - intros _. by rewrite go_eta.
  - intros [Hc Hpre]%andb_true_iff. unfold is_session in Hc.
    rewrite Hc. simpl. by rewrite (IH Hpre).
Qed.

Lemma handleChannels_granted d sshConn c rest before req after :
  is_session c = true ->
  c.(Accept) = Got (before ++ req :: after) ->
  forallb other_request before = true ->
  names_netconf req = true ->
  SSHDialer.handleChannels d sshConn (c :: rest)
  = (Accepted c.(channel)
       :: (refusals c.(channel) before
           ++ Replied c.(channel) req true :: Sent c.(channel) true
           :: refusals c.(channel) after)
       ++ [Traced (SubsystemReady d.(SSHDialer.target))],
     Done (Some (sshCallhomeConn.rwc
                   {| sshCallhomeConn.conn := sshConn;
                      sshCallhomeConn.channel := c.(channel) |}),
           None)).
Proof.
  intros Hc Hacc Hall Hreq. simpl. unfold is_session in Hc.
  rewrite Hc, Hacc. simpl.
  by rewrite (serve_requests_granted _ _ _ _ Hall Hreq).
Qed.

Lemma handleChannels_exhausted d sshConn c rest requests :
  is_session c = true ->
  c.(Accept) = Got requests ->
  forallb other_request requests = true ->
  SSHDialer.handleChannels d sshConn (c :: rest)
  = (Accepted c.(channel)
       :: (refusals c.(channel) requests ++ [Sent c.(channel) false])
       ++ [Closed (HChannel c.(channel))],
     Done (None, Some (Errorf "callhome: netconf subsystem not requested"))).
Proof.
  intros Hc Hacc Hall. simpl. unfold is_session in Hc.
  rewrite Hc, Hacc. simpl.
  by rewrite (serve_requests_exhausted _ _ Hall).
Qed.

Lemma handleChannels_short d sshConn c rest before req after :
  is_session c = true ->
  c.(Accept) = Got (before ++ req :: after) ->
  forallb other_request before = true ->
  short_subsystem req = true ->
  SSHDialer.handleChannels d sshConn (c :: rest)
  = (Accepted c.(channel) :: refusals c.(channel) before,
     Panic "slice bounds out of range").
Proof.
  intros Hc Hacc Hall Hreq. simpl. unfold is_session in Hc.
  rewrite Hc, Hacc. simpl.
  by rewrite (serve_requests_short _ _ _ _ Hall Hreq).
Qed.

(** C2.  Every channel-open request the negotiation loop receives whose
    type is not "session" is rejected with [UnknownChannelType] and the
    message "unknown channel type", and the loop goes on with the next
    request: the rest of the stream is handled as if the rejected requests
    had not been there, so a session channel that follows and asks for the
    netconf subsystem still yields the connection.  When the stream of
    channel-open requests ends without a session channel, [handleChannels],
    and with it [Dial], returns the error "callhome: no session channel
    received". *)
Theorem non_session_channels_are_rejected d sshConn pre :
  forallb (fun c => negb (is_session c)) pre = true ->
  (forall rest,
     SSHDialer.handleChannels d sshConn (pre ++ rest)
     = (rejections pre ++ events (SSHDialer.handleChannels d sshConn rest),
        outcome (SSHDialer.handleChannels d sshConn rest)))
  /\ (forall c rest before req after,
        is_session c = true ->
        c.(Accept) = Got (before ++ req :: after) ->
        forallb other_request before = true ->
        names_netconf req = true ->
        outcome (SSHDialer.handleChannels d sshConn (pre ++ c :: rest))
        = Done (Some (sshCallhomeConn.rwc
                        {| sshCallhomeConn.conn := sshConn;
                           sshCallhomeConn.channel := c.(channel) |}),
                None))
  /\ SSHDialer.handleChannels d sshConn pre
     = (rejections pre,
        Done (None, Some (Errorf "callhome: no session channel received")))
  /\ (forall ctx tcp,
        d.(SSHDialer.netDialer) ctx "tcp" d.(SSHDialer.target) = Got tcp ->
        ssh_NewServerConn tcp d.(SSHDialer.config) = Got (sshConn, pre) ->
        SSHDialer.Dial d ctx
        = (Traced (DialStart d.(SSHDialer.target))
             :: Traced (SSHConnected d.(SSHDialer.target))
             :: rejections pre
             ++ [Traced (DialDone d.(SSHDialer.target) None)],
           Done (None, Some (Errorf "callhome: no session channel received")))).
Proof.
  intros Hpre.
  assert (Hend : SSHDialer.handleChannels d sshConn pre
                 = (rejections pre,
                    Done (None, Some (Errorf "callhome: no session channel received")))).
  { rewrite <- (app_nil_r pre) at 1. rewrite (handleChannels_app _ _ _ _ Hpre).
    simpl. by rewrite app_nil_r. }
  repeat split.
  - intros rest. by apply handleChannels_app.
  - intros c rest before req after Hc Hacc Hall Hreq.
    rewrite (handleChannels_app _ _ _ _ Hpre).
    by rewrite (handleChannels_granted _ _ _ _ _ _ _ Hc Hacc Hall Hreq).
  - exact Hend.
  - intros ctx tcp Htcp Hssh. unfold SSHDialer.Dial.
    rewrite Htcp, Hssh, Hend. reflexivity.
Qed.

End servercallhome_ssh.

(** ** Closing and dialing through the [Dialer] interface *)

Section dialers.
Context {W : World}.

Lemma sshConn_Close_events (c : client.sshConn.t) :
  events (client.sshConn.Close c)
  = closes [HPipe <$> c.(client.sshConn.writer);
            HSession <$> c.(client.sshConn.session);
            HClient <$> c.(client.sshConn.client)].
Proof. destruct c as [[cl|] [s|] r [w|]]; reflexivity. Qed.

Lemma sshSessionConn_Close_events (c : client.sshSessionConn.t) :
  events (client.sshSessionConn.Close c)
  = closes [HPipe <$> c.(client.sshSessionConn.writer);
            HSession <$> c.(client.sshSessionConn.session)].
Proof. destruct c as [[s|] r [w|]]; reflexivity. Qed.

(** Nothing in the model panics while closing. *)
Lemma sshConn_Close_returns (c : client.sshConn.t) :
  exists err, outcome (client.sshConn.Close c) = Done err.
Proof. destruct c as [[cl|] [s|] r [w|]]; eexists; reflexivity. Qed.

(** C3.  [Close] of a dialer that wraps a connection of the caller (the
    client [TLSConnDialer], the Call Home [SSHConnDialer] and
    [TLSConnDialer]) performs no event at all, whatever connection it is
    given, and returns nil.  [Close] of [SSHClientDialer], given the session
    connection its [Dial] produced, in whatever state, closes the writer and
    the session of that connection and never the client.  [Close] of the
    dialers that dial afresh closes what [Dial] created: [SSHDialer] the
    session and the client, [TLSDialer] the TLS connection. *)
Theorem Close_respects_ownership :
  (forall (d : client.TLSConnDialer.t) conn,
     client.Close d conn = ([], Done None))
  /\ (forall (d : clientcallhome.SSHConnDialer.t) conn,
        client.Close d conn = ([], Done None))
  /\ (forall (d : clientcallhome.TLSConnDialer.t) conn,
        client.Close d conn = ([], Done None))
  /\ (forall (d : client.SSHClientDialer.t) (c : client.sshSessionConn.t),
        events (client.Close d (Some (client.sshSessionConn.rwc c)))
        = closes [HPipe <$> c.(client.sshSessionConn.writer);
                  HSession <$> c.(client.sshSessionConn.session)]
        /\ ~ In (Closed (HClient d.(client.SSHClientDialer.client)))
               (events (client.Close d (Some (client.sshSessionConn.rwc c)))))
  /\ (forall (d : client.SSHClientDialer.t) ctx s,
        client_NewSession d.(client.SSHClientDialer.client) = Got s ->
        session_RequestSubsystem s "netconf" = None ->
        exists conn,
          client.Dial d ctx = ([], Done (Some conn, None))
          /\ events (client.Close d (Some conn)) = [Closed (HSession s)])
  /\ (forall (d : client.SSHDialer.t) ctx cl s,
        ssh_Dial "tcp" d.(client.SSHDialer.target) d.(client.SSHDialer.config) = Got cl ->
        client_NewSession cl = Got s ->
        session_RequestSubsystem s "netconf" = None ->
        exists conn,
          outcome (client.Dial d ctx) = Done (Some conn, None)
          /\ events (client.Close d (Some conn))
             = [Closed (HSession s); Closed (HClient cl)])
  /\ (forall (d : client.SSHDialer.t) (c : client.sshConn.t),
        events (client.Close d (Some (client.sshConn.rwc c)))
        = closes [HPipe <$> c.(client.sshConn.writer);
                  HSession <$> c.(client.sshConn.session);
                  HClient <$> c.(client.sshConn.client)])
  /\ (forall (d : client.TLSDialer.t) ctx tcp,
        net_DialContext ctx "tcp" d.(client.TLSDialer.target) = Got tcp ->
        tls_Handshake (tls_Client tcp d.(client.TLSDialer.config)) = None ->
        exists conn,
          outcome (client.Dial d ctx) = Done (Some conn, None)
          /\ events (client.Close d (Some conn))
             = [Closed (HTLS (tls_Client tcp d.(client.TLSDialer.config)))]).
Proof.
  split; [done|]. split; [done|]. split; [done|].
  split.
  { intros d c.
    change (events (client.Close d (Some (client.sshSessionConn.rwc c))))
      with (events (client.sshSessionConn.Close c)).
    rewrite sshSessionConn_Close_events. split; [done|].
    destruct c as [[s|] r [w|]]; simpl; intuition congruence. }
  split.
  { intros d ctx s Hs Hsub. eexists. simpl.
    unfold client.SSHClientDialer.Dial. rewrite Hs, Hsub. split; reflexivity. }
  split.
  { intros d ctx cl s Hcl Hs Hsub. eexists. simpl.
    unfold client.SSHDialer.Dial. rewrite Hcl, Hs, Hsub. split; reflexivity. }
  split.
  { intros d c. apply sshConn_Close_events. }
  intros d ctx tcp Htcp Hhs. eexists. simpl.
  unfold client.TLSDialer.Dial, DoHandshake. rewrite Htcp. simpl.
  rewrite Hhs. destruct (Deadline ctx); split; reflexivity.
Qed.

(** C10.  [Dial] of a dialer that wraps an established connection (the
    client [TLSConnDialer], the Call Home [SSHConnDialer] and
    [TLSConnDialer]) returns the stored connection and a nil error and
    performs no event, for every context, a cancelled or expired one
    included; a second call returns the same connection again. *)
Theorem wrapping_Dial_returns_stored_connection (ctx ctx' : Context) :
  (forall d : client.TLSConnDialer.t,
     client.Dial d ctx
     = ([], Done (Some (tls_rwc d.(client.TLSConnDialer.conn)), None))
     /\ (do r1 <- client.Dial d ctx ; do r2 <- client.Dial d ctx' ; ret (r1, r2))
        = ([], Done ((Some (tls_rwc d.(client.TLSConnDialer.conn)), None),
                     (Some (tls_rwc d.(client.TLSConnDialer.conn)), None))))
  /\ (forall d : clientcallhome.SSHConnDialer.t,
        client.Dial d ctx
        = ([], Done (Some d.(clientcallhome.SSHConnDialer.conn), None))
        /\ (do r1 <- client.Dial d ctx ; do r2 <- client.Dial d ctx' ; ret (r1, r2))
           = ([], Done ((Some d.(clientcallhome.SSHConnDialer.conn), None),
                        (Some d.(clientcallhome.SSHConnDialer.conn), None))))
  /\ (forall d : clientcallhome.TLSConnDialer.t,
        client.Dial d ctx
        = ([], Done (Some (tls_rwc d.(clientcallhome.TLSConnDialer.conn)), None))
        /\ (do r1 <- client.Dial d ctx ; do r2 <- client.Dial d ctx' ; ret (r1, r2))
           = ([], Done ((Some (tls_rwc d.(clientcallhome.TLSConnDialer.conn)), None),
                        (Some (tls_rwc d.(clientcallhome.TLSConnDialer.conn)), None)))).
Proof. repeat split. Qed.

(** Whenever the outbound SSH dial returns an error, the client it had
    opened is closed, and so is the session, before the client. *)
Lemma SSHDialer_Dial_no_leak (d : client.SSHDialer.t) ctx cl r e :
  ssh_Dial "tcp" d.(client.SSHDialer.target) d.(client.SSHDialer.config) = Got cl ->
  outcome (client.SSHDialer.Dial d ctx) = Done (r, Some e) ->
  In (Closed (HClient cl)) (events (client.SSHDialer.Dial d ctx))
  /\ (forall s, client_NewSession cl = Got s ->
        precedes (Closed (HSession s)) (Closed (HClient cl))
          (events (client.SSHDialer.Dial d ctx))).
Proof.
  unfold client.SSHDialer.Dial. intros ->.
  destruct (client_NewSession cl) as [s|e1] eqn:Hs.
  - destruct (session_RequestSubsystem s "netconf") as [e2|] eqn:Hsub; simpl.
    + intros _. split; [by auto|].
      intros ? [= <-].
      by exists [Traced (DialStart (client.SSHDialer.target d))], [],
             [Traced (DialDone (client.SSHDialer.target d) (Some e2))].
    + discriminate.
  - simpl. intros _. split; [by auto|]. discriminate.
Qed.

(** The same for the Call Home manager, where a failed SSH handshake closes
    the accepted TCP connection. *)
Lemma SSHListener_Accept_no_leak (l : clientcallhome.SSHListener.t) ctx tcp r e :
  listener_Accept l.(clientcallhome.SSHListener.listener) = Got tcp ->
  outcome (clientcallhome.SSHListener.Accept l ctx) = Done (r, Some e) ->
  let tr := events (clientcallhome.SSHListener.Accept l ctx) in
  (forall e', ssh_NewClientConn tcp tcp.(RemoteAddr)
                l.(clientcallhome.SSHListener.config) = Failed e' ->
              In (Closed (HNet tcp)) tr)
  /\ (forall cl, ssh_NewClientConn tcp tcp.(RemoteAddr)
                   l.(clientcallhome.SSHListener.config) = Got cl ->
        In (Closed (HClient cl)) tr
        /\ (forall s, client_NewSession cl = Got s ->
              precedes (Closed (HSession s)) (Closed (HClient cl)) tr)).
Proof.
  unfold clientcallhome.SSHListener.Accept. intros ->.
  destruct (ssh_NewClientConn _ _ _) as [cl|e0] eqn:Hcl.
  - destruct (client_NewSession cl) as [s|e1] eqn:Hs.
    + destruct (session_RequestSubsystem s "netconf") as [e2|] eqn:Hsub; simpl.
      * intros _. split; [discriminate|]. intros ? [= <-].
        split; [by auto|]. intros s' Hs'. rewrite Hs in Hs'.
        injection Hs' as <-.
        by exists [Traced (AcceptDone (Some tcp) None);
                   Traced (SSHConnected (RemoteAddr tcp))], [], [].
      * discriminate.
    + simpl. intros _. split; [discriminate|]. intros ? [= <-].
      split; [by auto|]. intros s' Hs'. congruence.
  - simpl. intros _. split; [by auto|]. discriminate.
Qed.

(** C4.  A fresh SSH dial, outbound ([SSHDialer.Dial]) or on an accepted
    Call Home connection ([SSHListener.Accept]): when creating the session
    fails, the SSH client is closed before the error is returned; when the
    request for the "netconf" subsystem fails, the session is closed, then
    the client, before the error is returned.  With the failures of the
    earlier stages (nothing open yet, or only the accepted TCP connection,
    which is closed) these are all the failure paths, and on each of them
    everything opened so far has been closed when the function returns. *)
Theorem ssh_dial_failures_release_resources (ctx : Context) :
  (forall (d : client.SSHDialer.t),
     let target := d.(client.SSHDialer.target) in
     (forall e,
        ssh_Dial "tcp" target d.(client.SSHDialer.config) = Failed e ->
        client.SSHDialer.Dial d ctx
        = ([Traced (DialStart target); Traced (DialDone target (Some e))],
           Done (None, Some e)))
     /\ (forall cl e,
           ssh_Dial "tcp" target d.(client.SSHDialer.config) = Got cl ->
           client_NewSession cl = Failed e ->
           client.SSHDialer.Dial d ctx
           = ([Traced (DialStart target);
               Closed (HClient cl);
               Traced (DialDone target (Some e))],
              Done (None, Some e)))
     /\ (forall cl s e,
           ssh_Dial "tcp" target d.(client.SSHDialer.config) = Got cl ->
           client_NewSession cl = Got s ->
           session_RequestSubsystem s "netconf" = Some e ->
           client.SSHDialer.Dial d ctx
           = ([Traced (DialStart target);
               Closed (HSession s);
               Closed (HClient cl);
               Traced (DialDone target (Some e))],
              Done (None, Some e))))
  /\ (forall (l : clientcallhome.SSHListener.t),
        (forall e,
           listener_Accept l.(clientcallhome.SSHListener.listener) = Failed e ->
           clientcallhome.SSHListener.Accept l ctx
           = ([Traced (AcceptDone None (Some e))],
              Done (None, Some (Wrap "callhome: accept failed" e))))
        /\ (forall tcp e,
              listener_Accept l.(clientcallhome.SSHListener.listener) = Got tcp ->
              ssh_NewClientConn tcp tcp.(RemoteAddr)
                l.(clientcallhome.SSHListener.config) = Failed e ->
              clientcallhome.SSHListener.Accept l ctx
              = ([Traced (AcceptDone (Some tcp) None); Closed (HNet tcp)],
                 Done (None, Some (Wrap "callhome: SSH client handshake failed" e))))
        /\ (forall tcp cl e,
              listener_Accept l.(clientcallhome.SSHListener.listener) = Got tcp ->
              ssh_NewClientConn tcp tcp.(RemoteAddr)
                l.(clientcallhome.SSHListener.config) = Got cl ->
              client_NewSession cl = Failed e ->
              clientcallhome.SSHListener.Accept l ctx
              = ([Traced (AcceptDone (Some tcp) None);
                  Traced (SSHConnected tcp.(RemoteAddr));
                  Closed (HClient cl)],
                 Done (None, Some (Wrap "callhome: failed to create SSH session" e))))
        /\ (forall tcp cl s e,
              listener_Accept l.(clientcallhome.SSHListener.listener) = Got tcp ->
              ssh_NewClientConn tcp tcp.(RemoteAddr)
                l.(clientcallhome.SSHListener.config) = Got cl ->
              client_NewSession cl = Got s ->
              session_RequestSubsystem s "netconf" = Some e ->
              clientcallhome.SSHListener.Accept l ctx
              = ([Traced (AcceptDone (Some tcp) None);
                  Traced (SSHConnected tcp.(RemoteAddr));
                  Closed (HSession s);
                  Closed (HClient cl)],
                 Done (None,
                       Some (Wrap "callhome: failed to request netconf subsystem" e)))))
  /\ (forall (d : client.SSHDialer.t) cl r e,
        ssh_Dial "tcp" d.(client.SSHDialer.target) d.(client.SSHDialer.config) = Got cl ->
        outcome (client.SSHDialer.Dial d ctx) = Done (r, Some e) ->
        In (Closed (HClient cl)) (events (client.SSHDialer.Dial d ctx))
        /\ (forall s, client_NewSession cl = Got s ->
              precedes (Closed (HSession s)) (Closed (HClient cl))
                (events (client.SSHDialer.Dial d ctx))))
  /\ (forall (l : clientcallhome.SSHListener.t) tcp cl r e,
        listener_Accept l.(clientcallhome.SSHListener.listener) = Got tcp ->
        ssh_NewClientConn tcp tcp.(RemoteAddr)
          l.(clientcallhome.SSHListener.config) = Got cl ->
        outcome (clientcallhome.SSHListener.Accept l ctx) = Done (r, Some e) ->
        In (Closed (HClient cl)) (events (clientcallhome.SSHListener.Accept l ctx))
        /\ (forall s, client_NewSession cl = Got s ->
              precedes (Closed (HSession s)) (Closed (HClient cl))
                (events (clientcallhome.SSHListener.Accept l ctx)))).
Proof.
  split; [|split; [|split]]; cycle 2.
  { intros d cl r e. apply SSHDialer_Dial_no_leak. }
  { intros l tcp cl r e Htcp Hcl Hout.
    by apply (SSHListener_Accept_no_leak l ctx tcp r e Htcp Hout). }
  - intros d target. unfold client.SSHDialer.Dial. fold target.
    split; [|split].
    + by intros e ->.
    + by intros cl e -> ->.
    + by intros cl s e -> -> ->.
  - intros l. unfold clientcallhome.SSHListener.Accept.
    split; [|split; [|split]].
    + by intros e ->.
    + by intros tcp e -> ->.
    + by intros tcp cl e -> -> ->.
    + by intros tcp cl s e -> -> -> ->.
Qed.

(** C6.  The three TLS handshake paths: the fresh client dial
    ([client.TLSDialer.Dial]), the Call Home manager ([TLSListener.Accept])
    and the Call Home device ([servercallhome.TLSDialer.Dial]).  When the
    context carries a deadline, [SetDeadline] is called with it on the TLS
    connection before the handshake; after a successful handshake
    [SetDeadline] is called with the zero time; after a failed handshake the
    raw TCP connection is closed and the error of the handshake is returned
    (wrapped, on the two Call Home paths). *)
Theorem tls_handshake_deadline (ctx : Context) (deadline : Time) :
  ctx.(Deadline) = Some deadline ->
  (forall (d : client.TLSDialer.t) tcp,
     let target := d.(client.TLSDialer.target) in
     let c := tls_Client tcp d.(client.TLSDialer.config) in
     net_DialContext ctx "tcp" target = Got tcp ->
     (tls_Handshake c = None ->
      client.TLSDialer.Dial d ctx
      = ([Traced (DialStart target);
          DeadlineSet c deadline; Handshake c; DeadlineSet c zeroTime;
          Traced (DialDone target None)],
         Done (Some (tls_rwc c), None)))
     /\ (forall e,
           tls_Handshake c = Some e ->
           client.TLSDialer.Dial d ctx
           = ([Traced (DialStart target);
               DeadlineSet c deadline; Handshake c; Closed (HNet tcp);
               Traced (DialDone target (Some e))],
              Done (None, Some e))))
  /\ (forall (l : clientcallhome.TLSListener.t) tcp,
        let c := tls_Client tcp l.(clientcallhome.TLSListener.config) in
        listener_Accept l.(clientcallhome.TLSListener.listener) = Got tcp ->
        (tls_Handshake c = None ->
         clientcallhome.TLSListener.Accept l ctx
         = ([Traced (AcceptDone (Some tcp) None);
             DeadlineSet c deadline; Handshake c; DeadlineSet c zeroTime;
             Traced (TLSConnected tcp.(RemoteAddr) c)],
            Done (Some c, None)))
        /\ (forall e,
              tls_Handshake c = Some e ->
              clientcallhome.TLSListener.Accept l ctx
              = ([Traced (AcceptDone (Some tcp) None);
                  DeadlineSet c deadline; Handshake c; Closed (HNet tcp)],
                 Done (None, Some (Wrap "callhome: TLS handshake failed" e)))))
  /\ (forall (d : servercallhome.TLSDialer.t) tcp,
        let target := d.(servercallhome.TLSDialer.target) in
        let c := tls_Server tcp d.(servercallhome.TLSDialer.config) in
        d.(servercallhome.TLSDialer.netDialer) ctx "tcp" target = Got tcp ->
        (tls_Handshake c = None ->
         servercallhome.TLSDialer.Dial d ctx
         = ([Traced (DialStart target);
             DeadlineSet c deadline; Handshake c; DeadlineSet c zeroTime;
             Traced (TLSConnected target c);
             Traced (DialDone target None)],
            Done (Some (tls_rwc c), None)))
        /\ (forall e,
              tls_Handshake c = Some e ->
              servercallhome.TLSDialer.Dial d ctx
              = ([Traced (DialStart target);
                  DeadlineSet c deadline; Handshake c; Closed (HNet tcp);
                  Traced (DialDone target (Some e))],
                 Done (None, Some (Wrap "callhome: TLS handshake failed" e))))).
Proof.
  intros Hdeadline. split; [|split].
  - intros d tcp target c Htcp.
    unfold client.TLSDialer.Dial, DoHandshake. fold target.
    rewrite Htcp, Hdeadline. fold c. simpl.
    split; [intros Hhs | intros e Hhs]; by rewrite Hhs.
  - intros l tcp c Htcp.
    unfold clientcallhome.TLSListener.Accept, DoHandshake.
    rewrite Htcp, Hdeadline. fold c. simpl.
    split; [intros Hhs | intros e Hhs]; by rewrite Hhs.
  - intros d tcp target c Htcp.
    unfold servercallhome.TLSDialer.Dial, DoHandshake. fold target.
    rewrite Htcp, Hdeadline. fold c. simpl.
    split; [intros Hhs | intros e Hhs]; by rewrite Hhs.
Qed.

End dialers.

(** ** Transport and session factory *)

Section transport.
Context {W : World} {D : Type} {DD : client.Dialer D}.

Lemma merges_app (t1 t2 : list Event) : merges (t1 ++ t2) = merges t1 + merges t2.
Proof. unfold merges. by rewrite List.filter_app, length_app. Qed.

Lemma merges_cons (e : Event) (t : list Event) :
  merges (e :: t) = (if is_merge e then 1 else 0) + merges t.
Proof. unfold merges. simpl. by destruct (is_merge e). Qed.

(** [Close] of a transport delegates to the dialer and then calls the
    [ConnectionClosed] hook, always with a nil error. *)
Lemma transport_Close_spec (tr : client.transportImpl.t D) c err :
  tr.(client.transportImpl.conn) = Some c ->
  outcome (client.Close tr.(client.transportImpl.dialer) (Some c)) = Done err ->
  client.transportImpl.Close tr
  = (events (client.Close tr.(client.transportImpl.dialer) (Some c))
       ++ [Traced (ConnectionClosed tr.(client.transportImpl.target) None)],
     Done err).
Proof.
  intros Hc Hout. unfold client.transportImpl.Close. rewrite Hc.
  unfold bind at 1. by rewrite Hout.
Qed.

Lemma transport_Close_nil (tr : client.transportImpl.t D) :
  tr.(client.transportImpl.conn) = None ->
  client.transportImpl.Close tr
  = ([Traced (ConnectionClosed tr.(client.transportImpl.target) None)], Done None).
Proof. intros Hc. unfold client.transportImpl.Close. by rewrite Hc. Qed.

(** What a successful [NewTransport] returns. *)
Lemma NewTransport_Got ctx (dialer : D) tr :
  outcome (client.NewTransport ctx dialer) = Done (Got tr) ->
  tr.(client.transportImpl.dialer) = dialer
  /\ tr.(client.transportImpl.target) = client.Target dialer
  /\ outcome (client.Dial dialer ctx) = Done (tr.(client.transportImpl.conn), None).
Proof.
  unfold client.NewTransport. simpl.
  destruct (client.Dial dialer ctx) as [t [[conn [e|]]|msg]]; simpl; [| |done].
  - destruct conn as [c|]; simpl.
    + destruct (client.Close dialer (Some c)) as [t' [x|msg]]; simpl; done.
    + done.
  - by intros [= <-].
Qed.

Lemma NewTransport_merges ctx (dialer : D) :
  (forall ctx, merges (events (client.Dial dialer ctx)) = 0) ->
  (forall conn, merges (events (client.Close dialer conn)) = 0) ->
  merges (events (client.NewTransport ctx dialer)) = 0.
Proof.
  intros HD HC. unfold client.NewTransport. simpl.
  specialize (HD ctx).
  destruct (client.Dial dialer ctx) as [t [[conn [e|]]|msg]]; simpl in *;
    [| |done].
  - destruct conn as [c|]; simpl.
    + specialize (HC (Some c)).
      destruct (client.Close dialer (Some c)) as [t' [x|msg]]; simpl in *;
        rewrite ?merges_cons, ?merges_app, ?HD, ?HC; done.
    + by rewrite merges_cons, merges_app, HD.
  - by rewrite merges_cons, merges_app, HD.
Qed.

Lemma transport_Close_merges (tr : client.transportImpl.t D) :
  (forall conn, merges (events (client.Close tr.(client.transportImpl.dialer) conn)) = 0) ->
  merges (events (client.transportImpl.Close tr)) = 0.
Proof.
  intros HC. unfold client.transportImpl.Close.
  destruct (client.transportImpl.conn tr) as [c|]; [|done].
  specialize (HC (Some c)).
  destruct (client.Close _ (Some c)) as [t' [x|msg]]; simpl in *;
    rewrite ?merges_app, ?HC; done.
Qed.

(** The heap the factory works on after the merge. *)
Lemma resolved_heap_spec (h : Heap) cfg c dflt :
  h !! cfg = Some c ->
  h !! client.DefaultConfig = Some dflt ->
  resolved_heap h c = <[fresh (dom h) := merge_fields c dflt]> h.
Proof.
  intros Hc Hd. unfold resolved_heap, mergo_Merge.
  assert (fresh (dom h) <> client.DefaultConfig) as Hne.
  { intros Heq. apply (is_fresh (dom h)). rewrite Heq.
    apply elem_of_dom. by eexists. }
  rewrite lookup_insert_eq, lookup_insert_ne, Hd by done. simpl.
  apply insert_insert_eq.
Qed.

(** The factory, once [cfg] is known to point to a record. *)
Lemma NewRPCSessionFromDialer_unfold ctx (dialer : D) cfg (h : Heap) c :
  h !! cfg = Some c ->
  client.NewRPCSessionFromDialer ctx dialer cfg h
  = (run emit (Merged (fresh (dom h)) client.DefaultConfig) ;
     do r <- client.NewTransport ctx dialer ;
     match r with
     | Failed err => ret (resolved_heap h c, (None, Some err))
     | Got tr =>
         let r := NewSession ctx tr.(client.transportImpl.target)
                    (resolved_heap h c) (fresh (dom h)) in
         run match r.2 with
             | Some _ => do _ <- client.transportImpl.Close tr ; ret tt
             | None => ret tt
             end ;
         ret (resolved_heap h c, (r.1, r.2))
     end).
Proof. intros Hc. unfold client.NewRPCSessionFromDialer. by rewrite Hc. Qed.

(** The factory when the transport is there and the session layer fails:
    the transport is closed, then the pair of [NewSession] is returned. *)
Lemma NewRPCSessionFromDialer_session_failure ctx (dialer : D) cfg (h : Heap) c
    tr s e cerr :
  h !! cfg = Some c ->
  outcome (client.NewTransport ctx dialer) = Done (Got tr) ->
  NewSession ctx tr.(client.transportImpl.target) (resolved_heap h c)
    (fresh (dom h)) = (s, Some e) ->
  outcome (client.transportImpl.Close tr) = Done cerr ->
  client.NewRPCSessionFromDialer ctx dialer cfg h
  = (Merged (fresh (dom h)) client.DefaultConfig
       :: events (client.NewTransport ctx dialer)
       ++ events (client.transportImpl.Close tr),
     Done (resolved_heap h c, (s, Some e))).
Proof.
  intros Hc Htr Hs Hclose.
  rewrite (NewRPCSessionFromDialer_unfold _ _ _ _ _ Hc).
  destruct (client.NewTransport ctx dialer) as [t o]. simpl in Htr. subst o.
  unfold emit. rewrite !bind_done, Hs. cbn [fst snd].
  destruct (client.transportImpl.Close tr) as [t' o']. simpl in Hclose. subst o'.
  rewrite !bind_done. simpl. by rewrite !app_nil_r.
Qed.

(** The events of the factory: the merge, the events of [NewTransport],
    and, when the session layer fails, those of closing the transport. *)
Lemma NewRPCSessionFromDialer_events ctx (dialer : D) cfg (h : Heap) c :
  h !! cfg = Some c ->
  events (client.NewRPCSessionFromDialer ctx dialer cfg h)
  = Merged (fresh (dom h)) client.DefaultConfig
      :: events (client.NewTransport ctx dialer)
      ++ match outcome (client.NewTransport ctx dialer) with
         | Done (Got tr) =>
             match (NewSession ctx tr.(client.transportImpl.target)
                      (resolved_heap h c) (fresh (dom h))).2 with
             | Some _ => events (client.transportImpl.Close tr)
             | None => []
             end
         | _ => []
         end.
Proof.
  intros Hc. rewrite (NewRPCSessionFromDialer_unfold _ _ _ _ _ Hc).
  unfold emit. rewrite bind_done. cbn [events fst app]. f_equal.
  destruct (client.NewTransport ctx dialer) as [t [[tr|e]|msg]].
  - rewrite bind_done. cbn [events outcome fst snd]. f_equal.
    destruct (NewSession _ _ _ _) as [s [e|]]; cbn [fst snd]; [|done].
    destruct (client.transportImpl.Close tr) as [t' [x|msg]];
      simpl; by rewrite ?app_nil_r.
  - by rewrite bind_done.
  - by rewrite bind_panic, app_nil_r.
Qed.

(** The heap the factory returns is the resolved heap. *)
Lemma NewRPCSessionFromDialer_heap ctx (dialer : D) cfg (h : Heap) c hret r :
  h !! cfg = Some c ->
  outcome (client.NewRPCSessionFromDialer ctx dialer cfg h) = Done (hret, r) ->
  hret = resolved_heap h c.
Proof.
  intros Hc. rewrite (NewRPCSessionFromDialer_unfold _ _ _ _ _ Hc).
  unfold emit. rewrite bind_done. cbn [outcome snd].
  destruct (client.NewTransport ctx dialer) as [t [[tr|e]|msg]].
  - rewrite bind_done. cbn [snd].
    destruct (NewSession _ _ _ _) as [s [e|]]; cbn [fst snd].
    + destruct (client.transportImpl.Close tr) as [t' [x|msg]]; simpl;
        [by intros [= <- _]|done].
    + simpl. by intros [= <- _].
  - rewrite bind_done. simpl. by intros [= <- _].
  - by rewrite bind_panic.
Qed.

(** C7.  The factory copies the record [cfg] points to into a new variable
    and merges the default record into that copy: in the resolved record a
    field the caller left at its zero value has the value of the default
    record, and a field the caller set keeps its value.  The record of the
    caller is not written, nor is any other record of the heap.  The merge
    is the first thing the factory does, before [NewTransport]; the session
    layer is handed the resolved record; and in the whole invocation
    [mergo.Merge] is called once (the dialer itself calling it never). *)
Theorem defaults_merged_once ctx (dialer : D) cfg (h : Heap) c dflt :
  h !! cfg = Some c ->
  h !! client.DefaultConfig = Some dflt ->
  let rc := fresh (dom h) in
  let h' := resolved_heap h c in
  let call := client.NewRPCSessionFromDialer ctx dialer cfg h in
  (exists resolved,
     h' !! rc = Some resolved
     /\ forall field,
          (isEmptyValue (c field) = true -> resolved field = dflt field)
          /\ (isEmptyValue (c field) = false -> resolved field = c field))
  /\ h' !! cfg = Some c
  /\ (forall p, p <> rc -> h' !! p = h !! p)
  /\ (exists tail,
        events call
        = Merged rc client.DefaultConfig
            :: events (client.NewTransport ctx dialer) ++ tail)
  /\ (forall tr s,
        outcome (client.NewTransport ctx dialer) = Done (Got tr) ->
        NewSession ctx tr.(client.transportImpl.target) h' rc = (s, None) ->
        call = (Merged rc client.DefaultConfig
                  :: events (client.NewTransport ctx dialer),
                Done (h', (s, None))))
  /\ (forall hret r, outcome call = Done (hret, r) -> hret = h')
  /\ ((forall ctx', merges (events (client.Dial dialer ctx')) = 0) ->
      (forall conn, merges (events (client.Close dialer conn)) = 0) ->
      merges (events call) = 1).
Proof.
  intros Hc Hd rc h' call.
  assert (Hfresh : h !! rc = None).
  { apply not_elem_of_dom, is_fresh. }
  assert (Hrc : rc <> cfg) by congruence.
  assert (Hh' : h' = <[rc := merge_fields c dflt]> h).
  { by apply (resolved_heap_spec h cfg). }
  split.
  { exists (merge_fields c dflt). rewrite Hh', lookup_insert_eq.
    split; [done|]. intros field. unfold merge_fields.
    split; intros ->; done. }
  split.
  { by rewrite Hh', lookup_insert_ne. }
  split.
  { intros p Hp. by rewrite Hh', lookup_insert_ne. }
  split.
  { eexists. unfold call. by rewrite (NewRPCSessionFromDialer_events _ _ _ _ _ Hc). }
  split.
  { intros tr s Htr Hs. unfold call.
    rewrite (NewRPCSessionFromDialer_unfold _ _ _ _ _ Hc).
    destruct (client.NewTransport ctx dialer) as [t o]. simpl in Htr. subst o.
    unfold emit. rewrite !bind_done. fold rc h'. rewrite Hs.
    simpl. by rewrite !app_nil_r. }
  split.
  { intros hret r. by apply NewRPCSessionFromDialer_heap. }
  intros HD HC. unfold call.
  rewrite (NewRPCSessionFromDialer_events _ _ _ _ _ Hc).
  rewrite merges_cons, merges_app, (NewTransport_merges _ _ HD HC).
  cbn [is_merge].
  destruct (outcome (client.NewTransport ctx dialer)) as [[tr|e]|msg] eqn:Htr;
    [|done|done].
  destruct (NewSession _ _ _ _).2; [|done].
  apply NewTransport_Got in Htr as (Hdialer & _ & _).
  rewrite transport_Close_merges; [done|]. by rewrite Hdialer.
Qed.

End transport.

Section session_failure.
Context {W : World}.

(** C8.  When [NewTransport] has succeeded and [NewSession] then fails, the
    factory calls [Close] on the transport before it returns, and returns a
    nil session with the error of [NewSession].  [Close] of the transport
    hands the connection to [Close] of the dialer; for the dialers that own
    what they dialed this closes it: the session and the client of a fresh
    SSH dial, the TLS connection of a fresh TLS dial. *)
Theorem session_failure_closes_transport (ctx : Context) (cfg : loc) (h : Heap)
    (c : Config) :
  h !! cfg = Some c ->
  let rc := fresh (dom h) in
  let h' := resolved_heap h c in
  (forall (D : Type) (DD : client.Dialer D) (dialer : D) tr e cerr,
     outcome (client.NewTransport ctx dialer) = Done (Got tr) ->
     NewSession ctx tr.(client.transportImpl.target) h' rc = (None, Some e) ->
     outcome (client.transportImpl.Close tr) = Done cerr ->
     client.NewRPCSessionFromDialer ctx dialer cfg h
     = (Merged rc client.DefaultConfig
          :: events (client.NewTransport ctx dialer)
          ++ events (client.transportImpl.Close tr),
        Done (h', (None, Some e)))
     /\ (forall conn,
           tr.(client.transportImpl.conn) = Some conn ->
           events (client.transportImpl.Close tr)
           = events (client.Close dialer (Some conn))
               ++ [Traced (ConnectionClosed (client.Target dialer) None)]))
  /\ (forall (d : client.SSHDialer.t) cl s e,
        let target := d.(client.SSHDialer.target) in
        ssh_Dial "tcp" target d.(client.SSHDialer.config) = Got cl ->
        client_NewSession cl = Got s ->
        session_RequestSubsystem s "netconf" = None ->
        NewSession ctx target h' rc = (None, Some e) ->
        client.NewRPCSessionFromDialer ctx d cfg h
        = ([Merged rc client.DefaultConfig;
            Traced (ConnectStart target);
            Traced (DialStart target);
            Traced (DialDone target None);
            Traced (ConnectDone target None);
            Closed (HSession s);
            Closed (HClient cl);
            Traced (ConnectionClosed target None)],
           Done (h', (None, Some e))))
  /\ (forall (d : client.TLSDialer.t) tcp e,
        let target := d.(client.TLSDialer.target) in
        let tlsConn := tls_Client tcp d.(client.TLSDialer.config) in
        net_DialContext ctx "tcp" target = Got tcp ->
        tls_Handshake tlsConn = None ->
        NewSession ctx target h' rc = (None, Some e) ->
        outcome (client.NewRPCSessionFromDialer ctx d cfg h)
        = Done (h', (None, Some e))
        /\ exists tr,
             events (client.NewRPCSessionFromDialer ctx d cfg h)
             = tr ++ [Closed (HTLS tlsConn);
                      Traced (ConnectionClosed target None)]).
Proof.
  intros Hc rc h'. split; [|split].
  - intros D DD dialer tr e cerr Htr Hs Hclose. split.
    + by apply NewRPCSessionFromDialer_session_failure with (cerr := cerr).
    + intros conn Hconn.
      destruct (NewTransport_Got _ _ _ Htr) as (Hd & Ht & _).
      rewrite <- Ht, <- Hd.
      destruct (outcome (client.Close (client.transportImpl.dialer tr) (Some conn)))
        as [err|msg] eqn:Hout.
      * by rewrite (transport_Close_spec _ _ _ Hconn Hout).
      * unfold client.transportImpl.Close in Hclose. rewrite Hconn in Hclose.
        unfold bind in Hclose. by rewrite Hout in Hclose.
  - intros d cl s e target Hcl Hs Hsub Hfail.
    pose (conn := client.sshConn.rwc
                    {| client.sshConn.client := Some cl;
                       client.sshConn.session := Some s;
                       client.sshConn.reader := None;
                       client.sshConn.writer := None |}).
    pose (tr := {| client.transportImpl.conn := Some conn;
                   client.transportImpl.target := target;
                   client.transportImpl.dialer := d |}).
    assert (HNT : client.NewTransport ctx d
                  = ([Traced (ConnectStart target); Traced (DialStart target);
                      Traced (DialDone target None);
                      Traced (ConnectDone target None)],
                     Done (Got tr))).
    { unfold client.NewTransport. simpl.
      unfold client.SSHDialer.Dial, client.SSHDialer.Target.
      fold target. by rewrite Hcl, Hs, Hsub. }
    assert (HClose : exists cerr,
               client.transportImpl.Close tr
               = ([Closed (HSession s); Closed (HClient cl);
                   Traced (ConnectionClosed target None)], Done cerr)).
    { eexists. reflexivity. }
    destruct HClose as [cerr HClose].
    rewrite (NewRPCSessionFromDialer_session_failure
               ctx d cfg h c tr None e cerr Hc);
      rewrite ?HNT, ?HClose; done.
  - intros d tcp e target tlsConn Htcp Hhs Hfail.
    pose (tr := {| client.transportImpl.conn := Some (tls_rwc tlsConn);
                   client.transportImpl.target := target;
                   client.transportImpl.dialer := d |}).
    assert (HNT : exists t, client.NewTransport ctx d = (t, Done (Got tr))).
    { unfold client.NewTransport. simpl.
      unfold client.TLSDialer.Dial, client.TLSDialer.Target, DoHandshake.
      fold target. rewrite Htcp. fold tlsConn.
      destruct (Deadline ctx); simpl; rewrite Hhs; eexists; reflexivity. }
    destruct HNT as [t HNT].
    assert (HClose : client.transportImpl.Close tr
                     = ([Closed (HTLS tlsConn);
                         Traced (ConnectionClosed target None)],
                        Done (close_result (HTLS tlsConn)))).
    { reflexivity. }
    rewrite (NewRPCSessionFromDialer_session_failure
               ctx d cfg h c tr None e (close_result (HTLS tlsConn)) Hc);
      rewrite ?HNT, ?HClose; try done.
    split; [done|]. simpl.
    by exists (Merged rc client.DefaultConfig :: t).
Qed.

End session_failure.

(** * Further facts *)

(** ** More on the SSH negotiation of the Call Home device *)

Section negotiation.
Context {W : World}.
Import servercallhome.

Lemma request_cases req :
  names_netconf req = true \/ short_subsystem req = true
  \/ other_request req = true.
Proof.
  unfold other_request.
  destruct (names_netconf req), (short_subsystem req); auto.
Qed.

(** A stream either has no decisive request, or splits at the first one. *)
Lemma request_stream_cases requests :
  forallb other_request requests = true
  \/ exists before req after,
       requests = before ++ req :: after
       /\ forallb other_request before = true
       /\ (names_netconf req = true \/ short_subsystem req = true).
Proof.
  induction requests as [|r rest IH]; [by left|].
  destruct (request_cases r) as [Hn|[Hs|Ho]].
  - right. by exists [], r, rest; auto.
  - right. by exists [], r, rest; auto.
  - destruct IH as [Hall|(before & req & after & -> & Hall & Hreq)].
    + left. simpl. by rewrite Ho.
    + right. exists (r :: before), req, after. simpl. by rewrite Ho.
Qed.

Lemma replied_requests_app t1 t2 :
  replied_requests (t1 ++ t2) = replied_requests t1 ++ replied_requests t2.
Proof.
  induction t1 as [|e t1 IH]; [done|].
  destruct e; simpl; by rewrite ?IH.
Qed.

Lemma grants_app t1 t2 : grants (t1 ++ t2) = grants t1 + grants t2.
Proof.
  induction t1 as [|e t1 IH]; [done|].
  destruct e as [| | | | |? ? []| | |]; simpl; by rewrite ?IH.
Qed.

Lemma sent_values_app t1 t2 :
  sent_values (t1 ++ t2) = sent_values t1 ++ sent_values t2.
Proof.
  induction t1 as [|e t1 IH]; [done|].
  destruct e; simpl; by rewrite ?IH.
Qed.

Lemma refusals_replied ch requests :
  replied_requests (refusals ch requests) = requests
  /\ grants (refusals ch requests) = 0
  /\ sent_values (refusals ch requests) = [].
Proof.
  induction requests as [|r rest (IH1 & IH2 & IH3)]; [done|].
  simpl. by rewrite IH1, IH2, IH3.
Qed.

Lemma refusals_negotiation ch requests :
  forallb negotiation_event (refusals ch requests) = true.
Proof. by induction requests. Qed.

(** X1.  The goroutine that serves the requests of the session channel
    panics exactly when a "subsystem" request with fewer than four payload
    bytes arrives before any netconf subsystem request.  Requests of other
    types never make it panic, however short their payload, and once the
    netconf subsystem is granted no later request does. *)
Theorem serve_requests_panics_iff ch requests :
  (exists msg, outcome (SSHDialer.serve_requests ch requests) = Panic msg)
  <-> exists before req after,
        requests = before ++ req :: after
        /\ forallb other_request before = true
        /\ short_subsystem req = true.
Proof.
  split.
  - intros [msg Hp].
    destruct (request_stream_cases requests)
      as [Hall|(before & req & after & -> & Hall & [Hn|Hs])].
    + by rewrite (serve_requests_exhausted _ _ Hall) in Hp.
    + by rewrite (serve_requests_granted _ _ _ _ Hall Hn) in Hp.
    + by exists before, req, after.
  - intros (before & req & after & -> & Hall & Hs).
    rewrite (serve_requests_short _ _ _ _ Hall Hs). by eexists.
Qed.

(** X2.  When the goroutine ends without a panic, it has replied to every
    request of the stream, once and in the order of arrival; it has granted
    one request when it reports success and none otherwise; and it has sent
    exactly one value on [subsystemChan], the one it reports. *)
Theorem serve_requests_answers_each_once ch requests ok :
  outcome (SSHDialer.serve_requests ch requests) = Done ok ->
  let tr := events (SSHDialer.serve_requests ch requests) in
  replied_requests tr = requests
  /\ grants tr = (if ok then 1 else 0)
  /\ sent_values tr = [ok].
Proof.
  intros Hok tr. unfold tr. clear tr.
  destruct (request_stream_cases requests)
    as [Hall|(before & req & after & -> & Hall & [Hn|Hs])].
  - rewrite (serve_requests_exhausted _ _ Hall) in *.
    injection Hok as <-. simpl.
    rewrite replied_requests_app, grants_app, sent_values_app.
    destruct (refusals_replied ch requests) as (-> & -> & ->).
    simpl. by rewrite app_nil_r.
  - rewrite (serve_requests_granted _ _ _ _ Hall Hn) in *.
    injection Hok as <-. simpl.
    rewrite replied_requests_app, grants_app, sent_values_app. simpl.
    destruct (refusals_replied ch before) as (-> & -> & ->).
    destruct (refusals_replied ch after) as (-> & -> & ->).
    done.
  - by rewrite (serve_requests_short _ _ _ _ Hall Hs) in Hok.
Qed.

(** What [handleChannels] does with a session channel, in terms of what
    the goroutine does with its requests. *)
Lemma handleChannels_session d sshConn c rest requests :
  is_session c = true ->
  c.(Accept) = Got requests ->
  SSHDialer.handleChannels d sshConn (c :: rest)
  = match SSHDialer.serve_requests c.(channel) requests with
    | (t, Done true) =>
        (Accepted c.(channel) :: t ++ [Traced (SubsystemReady d.(SSHDialer.target))],
         Done (Some (sshCallhomeConn.rwc
                       {| sshCallhomeConn.conn := sshConn;
                          sshCallhomeConn.channel := c.(channel) |}),
               None))
    | (t, Done false) =>
        (Accepted c.(channel) :: t ++ [Closed (HChannel c.(channel))],
         Done (None, Some (Errorf "callhome: netconf subsystem not requested")))
    | (t, Panic msg) => (Accepted c.(channel) :: t, Panic msg)
    end.
Proof.
  intros Hc Hacc. simpl. unfold is_session in Hc. rewrite Hc, Hacc. simpl.
  by destruct (SSHDialer.serve_requests (channel c) requests) as [t [[|]|msg]].
Qed.

(** X3.  The loop deals with one session channel only, the first: whatever
    the negotiation on it yields (the connection, a refusal, a failed
    Accept) is the result, and the channel-open requests that follow it are
    never looked at.  A later session channel cannot make up for a first
    one that failed. *)
Theorem first_session_channel_decides d sshConn pre c rest :
  forallb (fun c => negb (is_session c)) pre = true ->
  is_session c = true ->
  SSHDialer.handleChannels d sshConn (pre ++ c :: rest)
  = SSHDialer.handleChannels d sshConn (pre ++ [c]).
Proof.
  intros Hpre Hc.
  rewrite !(handleChannels_app _ _ _ _ Hpre).
  assert (SSHDialer.handleChannels d sshConn (c :: rest)
          = SSHDialer.handleChannels d sshConn [c]) as ->; [|done].
  simpl. unfold is_session in Hc. by rewrite Hc.
Qed.

Lemma serve_requests_negotiation ch requests :
  forallb negotiation_event (events (SSHDialer.serve_requests ch requests)) = true.
Proof.
  destruct (request_stream_cases requests)
    as [Hall|(before & req & after & -> & Hall & [Hn|Hs])].
  - rewrite (serve_requests_exhausted _ _ Hall). simpl.
    by rewrite forallb_app, refusals_negotiation.
  - rewrite (serve_requests_granted _ _ _ _ Hall Hn). simpl.
    rewrite forallb_app, refusals_negotiation. simpl.
    apply refusals_negotiation.
  - rewrite (serve_requests_short _ _ _ _ Hall Hs). apply refusals_negotiation.
Qed.

Lemma handleChannels_negotiation d sshConn chans :
  forallb negotiation_event (events (SSHDialer.handleChannels d sshConn chans)) = true.
Proof.
  induction chans as [|c rest IH]; [done|].
  destruct (is_session c) eqn:Hc.
  - destruct (Accept c) as [requests|err] eqn:Hacc.
    + rewrite (handleChannels_session _ _ _ _ _ Hc Hacc).
      pose proof (serve_requests_negotiation (channel c) requests) as Hs.
      destruct (SSHDialer.serve_requests (channel c) requests) as [t [[|]|msg]];
        simpl in *; rewrite ?forallb_app, ?Hs; done.
    + simpl. unfold is_session in Hc. by rewrite Hc, Hacc.
  - simpl. unfold is_session in Hc. rewrite Hc. simpl.
    destruct (SSHDialer.handleChannels d sshConn rest) as [t [r|msg]];
      simpl in *; done.
Qed.

(** X4.  The failure stages of the Call Home SSH dial.  A failed TCP dial
    closes nothing and is returned wrapped; a failed SSH handshake closes
    the TCP connection.  Once the handshake has succeeded, [Dial] closes
    nothing but channels, whatever the peer does: when the negotiation
    fails, the TCP connection and the SSH connection stay open, and the
    [DialDone] hook is called with a nil error although [Dial] returns an
    error. *)
Theorem callhome_ssh_dial_failure_stages (d : SSHDialer.t) ctx :
  let target := d.(SSHDialer.target) in
  (forall e,
     d.(SSHDialer.netDialer) ctx "tcp" target = Failed e ->
     SSHDialer.Dial d ctx
     = ([Traced (DialStart target); Traced (DialDone target (Some e))],
        Done (None, Some (Wrap "callhome: failed to connect to client" e))))
  /\ (forall tcp e,
        d.(SSHDialer.netDialer) ctx "tcp" target = Got tcp ->
        ssh_NewServerConn tcp d.(SSHDialer.config) = Failed e ->
        SSHDialer.Dial d ctx
        = ([Traced (DialStart target); Closed (HNet tcp);
            Traced (DialDone target (Some e))],
           Done (None, Some (Wrap "callhome: SSH handshake failed" e))))
  /\ (forall tcp sshConn chans,
        d.(SSHDialer.netDialer) ctx "tcp" target = Got tcp ->
        ssh_NewServerConn tcp d.(SSHDialer.config) = Got (sshConn, chans) ->
        let tr := events (SSHDialer.Dial d ctx) in
        (forall h, In (Closed h) tr -> exists ch, h = HChannel ch)
        /\ (forall err, In (Traced (DialDone target err)) tr -> err = None)
        /\ (forall r e,
              outcome (SSHDialer.Dial d ctx) = Done (r, Some e) ->
              exists t, tr = t ++ [Traced (DialDone target None)])).
Proof.
  intros target. unfold SSHDialer.Dial. fold target.
  split; [by intros e ->|]. split; [by intros tcp e -> ->|].
  intros tcp sshConn chans -> ->.
  pose proof (handleChannels_negotiation d sshConn chans) as Hneg.
  destruct (SSHDialer.handleChannels d sshConn chans) as [t [r|msg]];
    simpl in *.
  - rewrite forallb_forall in Hneg. split; [|split].
    + intros h [?|[?|Hin]]; [done|done|].
      apply in_app_or in Hin as [Hin|[?|[]]]; [|done].
      apply Hneg in Hin. destruct h; try done. by eexists.
    + intros err [?|[?|Hin]]; [done|done|].
      apply in_app_or in Hin as [Hin|[Heq|[]]]; [|congruence].
      by apply Hneg in Hin.
    + intros r' e _.
      by exists (Traced (DialStart target) :: Traced (SSHConnected target) :: t).
  - rewrite forallb_forall in Hneg. split; [|split].
    + intros h [?|[?|Hin]]; [done|done|].
      apply Hneg in Hin. destruct h; try done. by eexists.
    + intros err [?|[?|Hin]]; [done|done|]. by apply Hneg in Hin.
    + done.
Qed.

(** X5.  Whether a "subsystem" request is taken for the netconf subsystem
    depends on the payload bytes from offset 4 on and on nothing else: the
    four leading bytes, the length field of the SSH string, are not
    looked at, so any four bytes followed by "netconf" are accepted, and
    any four bytes followed by another name are not. *)
Theorem subsystem_name_is_read_from_offset_4 (prefix : list byte) (name : string)
    (wantReply : bool) :
  length prefix = 4 ->
  SSHDialer.is_netconf_subsystem
    {| Type_ := "subsystem"; WantReply := wantReply;
       Payload := prefix ++ String.list_byte_of_string name |}
  = ([], Done (String.eqb name "netconf")).
Proof.
  intros Hlen. unfold SSHDialer.is_netconf_subsystem, SSHDialer.Payload_from_4.
  cbn [Type_ Payload]. rewrite String.eqb_refl, length_app, Hlen.
  assert ((4 + length (String.list_byte_of_string name) <? 4)%nat = false) as ->.
  { apply Nat.ltb_ge. lia. }
  assert (drop 4 (prefix ++ String.list_byte_of_string name)
          = String.list_byte_of_string name) as ->.
  { rewrite <- Hlen. apply drop_app_length. }
  by rewrite bind_ret_l, String.string_of_list_byte_of_string.
Qed.

(** X20.  When [handleChannels] returns a connection.  It does so exactly
    when the stream of channel-open requests has a first session channel,
    the Accept of that channel succeeds, and on it a netconf subsystem
    request arrives before any "subsystem" request with a payload of fewer
    than four bytes; the connection is then the one over that channel. *)
Theorem handleChannels_succeeds_iff d sshConn chans :
  (exists conn,
     outcome (SSHDialer.handleChannels d sshConn chans) = Done (Some conn, None))
  <-> exists pre c rest before req after,
        chans = pre ++ c :: rest
        /\ forallb (fun c => negb (is_session c)) pre = true
        /\ is_session c = true
        /\ c.(Accept) = Got (before ++ req :: after)
        /\ forallb other_request before = true
        /\ names_netconf req = true.
Proof.
  split.
  - induction chans as [|c rest IH]; [by intros [conn ?]|].
    intros [conn Hconn]. destruct (is_session c) eqn:Hc.
    + destruct (Accept c) as [requests|err] eqn:Hacc.
      * destruct (request_stream_cases requests)
          as [Hall|(before & req & after & -> & Hall & [Hn|Hs])].
        -- by rewrite (handleChannels_exhausted _ _ _ _ _ Hc Hacc Hall) in Hconn.
        -- by exists [], c, rest, before, req, after.
        -- by rewrite (handleChannels_short _ _ _ _ _ _ _ Hc Hacc Hall Hs) in Hconn.
      * simpl in Hconn. unfold is_session in Hc. by rewrite Hc, Hacc in Hconn.
    + assert (Hpre : forallb (fun c => negb (is_session c)) [c] = true).
      { simpl. by rewrite Hc. }
      change (c :: rest) with ([c] ++ rest) in Hconn.
      rewrite (handleChannels_app _ _ _ _ Hpre) in Hconn. simpl in Hconn.
      destruct IH as (pre & c' & rest' & before & req & after
                      & -> & Hpre' & Hrest); [by exists conn|].
      exists (c :: pre), c', rest', before, req, after.
      split; [done|]. split; [|done]. simpl. by rewrite Hc.
  - intros (pre & c & rest & before & req & after
            & -> & Hpre & Hc & Hacc & Hall & Hreq).
    rewrite (handleChannels_app _ _ _ _ Hpre).
    rewrite (handleChannels_granted _ _ _ _ _ _ _ Hc Hacc Hall Hreq).
    by eexists.
Qed.

End negotiation.

(** ** More on closing and dialing *)

Section closing.
Context {W : World}.

Lemma close_until_error_ok (hs : list Handle) :
  Forall (fun h => close_result h = None) hs ->
  close_until_error hs = (Closed <$> hs, Done None).
Proof.
  induction 1 as [|h hs Hh _ IH]; [done|].
  simpl. unfold close, bind. simpl. by rewrite Hh, IH.
Qed.

Lemma close_until_error_stops (before : list Handle) h after e :
  Forall (fun h => close_result h = None) before ->
  close_result h = Some e ->
  close_until_error (before ++ h :: after)
  = (Closed <$> (before ++ [h]), Done (Some e)).
Proof.
  induction 1 as [|h' hs Hh _ IH]; intros He.
  - simpl. unfold close, bind. simpl. by rewrite He.
  - simpl. unfold close, bind. simpl. by rewrite Hh, (IH He).
Qed.

(** X6.  [Close] of the two Call Home connections closes its parts in
    order (the channel and the SSH connection of the device; the writer if
    there is one, the session and the client of the manager) and stops at
    the first [Close] that fails: that error is returned and the parts
    that come after it are left open. *)
Theorem callhome_Close_stops_at_first_error :
  (forall c : servercallhome.sshCallhomeConn.t,
     servercallhome.sshCallhomeConn.Close c
     = close_until_error
         [HChannel c.(servercallhome.sshCallhomeConn.channel);
          HServerConn c.(servercallhome.sshCallhomeConn.conn)])
  /\ (forall c : clientcallhome.sshCallhomeConn.t,
        clientcallhome.sshCallhomeConn.Close c
        = close_until_error
            (match c.(clientcallhome.sshCallhomeConn.writer) with
             | Some w => [HPipe w]
             | None => []
             end
             ++ [HSession c.(clientcallhome.sshCallhomeConn.session);
                 HClient c.(clientcallhome.sshCallhomeConn.client)]))
  /\ (forall before h after e,
        Forall (fun h => close_result h = None) before ->
        close_result h = Some e ->
        close_until_error (before ++ h :: after)
        = (Closed <$> (before ++ [h]), Done (Some e)))
  /\ (forall hs,
        Forall (fun h => close_result h = None) hs ->
        close_until_error hs = (Closed <$> hs, Done None)).
Proof.
  split; [|split; [|split]].
  - intros c. unfold servercallhome.sshCallhomeConn.Close. simpl.
    unfold close, bind. simpl.
    destruct (close_result (HChannel _)); [done|].
    by destruct (close_result (HServerConn _)).
  - intros c. unfold clientcallhome.sshCallhomeConn.Close.
    destruct (clientcallhome.sshCallhomeConn.writer c) as [w|]; simpl;
      unfold close, bind; simpl.
    + destruct (close_result (HPipe w)); [done|]. simpl.
      destruct (close_result (HSession _)); [done|]. simpl.
      by destruct (close_result (HClient _)).
    + destruct (close_result (HSession _)); [done|]. simpl.
      by destruct (close_result (HClient _)).
  - apply close_until_error_stops.
  - apply close_until_error_ok.
Qed.

(** X7.  [Close] of the connections of package [client] ([sshConn] of a
    fresh dial, [sshSessionConn] on a client of the caller) calls [Close]
    on every part that is set, also after one of them has failed, and
    returns the first error met. *)
Theorem client_conn_Close_closes_everything :
  (forall c : client.sshConn.t,
     let parts := [HPipe <$> c.(client.sshConn.writer);
                   HSession <$> c.(client.sshConn.session);
                   HClient <$> c.(client.sshConn.client)] in
     client.sshConn.Close c = (closes parts, Done (first_failure parts)))
  /\ (forall c : client.sshSessionConn.t,
        let parts := [HPipe <$> c.(client.sshSessionConn.writer);
                      HSession <$> c.(client.sshSessionConn.session)] in
        client.sshSessionConn.Close c = (closes parts, Done (first_failure parts))).
Proof.
  split.
  - intros [[cl|] [s|] r [w|]]; simpl;
      unfold client.sshConn.Close, close, bind; simpl;
      repeat (match goal with
              | |- context [close_result ?h] => destruct (close_result h)
              end; simpl); reflexivity.
  - intros [[s|] r [w|]]; simpl;
      unfold client.sshSessionConn.Close, close, bind; simpl;
      repeat (match goal with
              | |- context [close_result ?h] => destruct (close_result h)
              end; simpl); reflexivity.
Qed.

(** X8.  [SSHClientDialer.Dial] works on a client of the caller and never
    closes it, on no path: when the session cannot be created nothing is
    closed, when the subsystem request fails the session is closed, and
    whatever [Dial] closes is the session it has just created. *)
Theorem SSHClientDialer_Dial_spares_the_client (d : client.SSHClientDialer.t) ctx :
  let cl := d.(client.SSHClientDialer.client) in
  (forall e,
     client_NewSession cl = Failed e ->
     client.SSHClientDialer.Dial d ctx = ([], Done (None, Some e)))
  /\ (forall s e,
        client_NewSession cl = Got s ->
        session_RequestSubsystem s "netconf" = Some e ->
        client.SSHClientDialer.Dial d ctx
        = ([Closed (HSession s)], Done (None, Some e)))
  /\ (forall h,
        In (Closed h) (events (client.SSHClientDialer.Dial d ctx)) ->
        exists s, h = HSession s /\ client_NewSession cl = Got s).
Proof.
  intros cl. unfold client.SSHClientDialer.Dial. fold cl.
  split; [by intros e ->|]. split; [by intros s e -> ->|].
  intros h. destruct (client_NewSession cl) as [s|e]; [|by intros []].
  destruct (session_RequestSubsystem s "netconf"); simpl; [|by intros []].
  intros [[= <-]|[]]. by exists s.
Qed.

(** X9.  The TLS handshake paths under a context without deadline: no
    deadline is set before the handshake, and after a successful handshake
    [SetDeadline] is still called with the zero time; a failed handshake
    closes the raw TCP connection. *)
Theorem tls_handshake_without_deadline (ctx : Context) :
  ctx.(Deadline) = None ->
  (forall (d : client.TLSDialer.t) tcp,
     let target := d.(client.TLSDialer.target) in
     let c := tls_Client tcp d.(client.TLSDialer.config) in
     net_DialContext ctx "tcp" target = Got tcp ->
     (tls_Handshake c = None ->
      client.TLSDialer.Dial d ctx
      = ([Traced (DialStart target); Handshake c; DeadlineSet c zeroTime;
          Traced (DialDone target None)],
         Done (Some (tls_rwc c), None)))
     /\ (forall e,
           tls_Handshake c = Some e ->
           client.TLSDialer.Dial d ctx
           = ([Traced (DialStart target); Handshake c; Closed (HNet tcp);
               Traced (DialDone target (Some e))],
              Done (None, Some e))))
  /\ (forall (l : clientcallhome.TLSListener.t) tcp,
        let c := tls_Client tcp l.(clientcallhome.TLSListener.config) in
        listener_Accept l.(clientcallhome.TLSListener.listener) = Got tcp ->
        (tls_Handshake c = None ->
         clientcallhome.TLSListener.Accept l ctx
         = ([Traced (AcceptDone (Some tcp) None); Handshake c;
             DeadlineSet c zeroTime;
             Traced (TLSConnected tcp.(RemoteAddr) c)],
            Done (Some c, None)))
        /\ (forall e,
              tls_Handshake c = Some e ->
              clientcallhome.TLSListener.Accept l ctx
              = ([Traced (AcceptDone (Some tcp) None); Handshake c;
                  Closed (HNet tcp)],
                 Done (None, Some (Wrap "callhome: TLS handshake failed" e)))))
  /\ (forall (d : servercallhome.TLSDialer.t) tcp,
        let target := d.(servercallhome.TLSDialer.target) in
        let c := tls_Server tcp d.(servercallhome.TLSDialer.config) in
        d.(servercallhome.TLSDialer.netDialer) ctx "tcp" target = Got tcp ->
        (tls_Handshake c = None ->
         servercallhome.TLSDialer.Dial d ctx
         = ([Traced (DialStart target); Handshake c; DeadlineSet c zeroTime;
             Traced (TLSConnected target c); Traced (DialDone target None)],
            Done (Some (tls_rwc c), None)))
        /\ (forall e,
              tls_Handshake c = Some e ->
              servercallhome.TLSDialer.Dial d ctx
              = ([Traced (DialStart target); Handshake c; Closed (HNet tcp);
                  Traced (DialDone target (Some e))],
                 Done (None, Some (Wrap "callhome: TLS handshake failed" e))))).
Proof.
  intros Hdeadline. split; [|split].
  - intros d tcp target c Htcp.
    unfold client.TLSDialer.Dial, DoHandshake. fold target.
    rewrite Htcp, Hdeadline. fold c. simpl.
    split; [intros Hhs | intros e Hhs]; by rewrite Hhs.
  - intros l tcp c Htcp.
    unfold clientcallhome.TLSListener.Accept, DoHandshake.
    rewrite Htcp, Hdeadline. fold c. simpl.
    split; [intros Hhs | intros e Hhs]; by rewrite Hhs.
  - intros d tcp target c Htcp.
    unfold servercallhome.TLSDialer.Dial, DoHandshake. fold target.
    rewrite Htcp, Hdeadline. fold c. simpl.
    split; [intros Hhs | intros e Hhs]; by rewrite Hhs.
Qed.


End closing.

(** ** More on the transport and the factories *)

Section transport_more.
Context {W : World} {D : Type} {DD : client.Dialer D}.

(** X10.  [NewTransport] brackets the dial between the [ConnectStart] and
    [ConnectDone] hooks, and [ConnectDone] carries the error of the dial.
    A dial without error yields a transport that holds the connection, the
    target and the dialer.  A dial with an error yields no transport; a
    connection that came along with the error is handed to [Close] of the
    dialer before [ConnectDone] is called. *)
Theorem NewTransport_brackets_the_dial ctx (dialer : D) t conn err :
  client.Dial dialer ctx = (t, Done (conn, err)) ->
  let target := client.Target dialer in
  (err = None ->
   client.NewTransport ctx dialer
   = (Traced (ConnectStart target) :: t ++ [Traced (ConnectDone target None)],
      Done (Got {| client.transportImpl.conn := conn;
                   client.transportImpl.target := target;
                   client.transportImpl.dialer := dialer |})))
  /\ (forall e,
        err = Some e -> conn = None ->
        client.NewTransport ctx dialer
        = (Traced (ConnectStart target) :: t
             ++ [Traced (ConnectDone target (Some e))],
           Done (Failed e)))
  /\ (forall e c tc cerr,
        err = Some e -> conn = Some c ->
        client.Close dialer (Some c) = (tc, Done cerr) ->
        client.NewTransport ctx dialer
        = (Traced (ConnectStart target) :: t ++ tc
             ++ [Traced (ConnectDone target (Some e))],
           Done (Failed e))).
Proof.
  intros HD target. unfold client.NewTransport. fold target. rewrite HD.
  split; [|split].
  - intros ->. reflexivity.
  - intros e -> ->. reflexivity.
  - intros e c tc cerr -> -> HC. unfold trace, emit, ret.
    rewrite !bind_done. cbn [fst snd]. rewrite HC, !bind_done. simpl.
    by rewrite ?app_nil_r, <- ?app_assoc.
Qed.

(** X11.  The factory without a transport.  A nil configuration pointer
    panics before anything is done: nothing is merged, nothing is dialed.
    When [NewTransport] fails, the factory returns a nil session and the
    error of [NewTransport] as it is, after the merge and the events of the
    failed [NewTransport] and nothing else. *)
Theorem factory_without_transport ctx (dialer : D) cfg (h : Heap) :
  (h !! cfg = None ->
   client.NewRPCSessionFromDialer ctx dialer cfg h
   = ([], Panic "invalid memory address or nil pointer dereference"))
  /\ (forall c e,
        h !! cfg = Some c ->
        outcome (client.NewTransport ctx dialer) = Done (Failed e) ->
        client.NewRPCSessionFromDialer ctx dialer cfg h
        = (Merged (fresh (dom h)) client.DefaultConfig
             :: events (client.NewTransport ctx dialer),
           Done (resolved_heap h c, (None, Some e)))).
Proof.
  split.
  - intros Hc. unfold client.NewRPCSessionFromDialer. by rewrite Hc.
  - intros c e Hc Htr.
    rewrite (NewRPCSessionFromDialer_unfold _ _ _ _ _ Hc).
    destruct (client.NewTransport ctx dialer) as [t o]. simpl in Htr. subst o.
    unfold emit. rewrite !bind_done. simpl. by rewrite app_nil_r.
Qed.

End transport_more.

Section hooks_and_factories.
Context {W : World}.

Lemma hooks_app t1 t2 : hooks (t1 ++ t2) = hooks t1 ++ hooks t2.
Proof.
  induction t1 as [|e t1 IH]; [done|].
  destruct e; simpl; by rewrite ?IH.
Qed.

(** X12.  The hooks of a transport over a fresh SSH or TLS dial are called
    in one order, whatever the network does: [ConnectStart], [DialStart],
    [DialDone], [ConnectDone], the two last with the same error, which is
    nil exactly when a transport is returned and is the returned error
    otherwise.  Closing the transport calls [ConnectionClosed] once. *)
Theorem NewTransport_hook_order (ctx : Context) :
  (forall d : client.SSHDialer.t,
     let target := d.(client.SSHDialer.target) in
     exists err,
       hooks (events (client.NewTransport ctx d))
       = [ConnectStart target; DialStart target;
          DialDone target err; ConnectDone target err]
       /\ match outcome (client.NewTransport ctx d) with
          | Done (Got tr) =>
              err = None
              /\ hooks (events (client.transportImpl.Close tr))
                 = [ConnectionClosed target None]
          | Done (Failed e) => err = Some e
          | Panic _ => False
          end)
  /\ (forall d : client.TLSDialer.t,
        let target := d.(client.TLSDialer.target) in
        exists err,
          hooks (events (client.NewTransport ctx d))
          = [ConnectStart target; DialStart target;
             DialDone target err; ConnectDone target err]
          /\ match outcome (client.NewTransport ctx d) with
             | Done (Got tr) =>
                 err = None
                 /\ hooks (events (client.transportImpl.Close tr))
                    = [ConnectionClosed target None]
             | Done (Failed e) => err = Some e
             | Panic _ => False
             end).
Proof.
  split.
  - intros d target. unfold client.NewTransport. simpl.
    unfold client.SSHDialer.Dial, client.SSHDialer.Target. fold target.
    destruct (ssh_Dial "tcp" target (client.SSHDialer.config d)) as [cl|e];
      [|by exists (Some e)].
    destruct (client_NewSession cl) as [s|e]; [|by exists (Some e)].
    destruct (session_RequestSubsystem s "netconf") as [e|];
      [by exists (Some e)|].
    by exists None.
  - intros d target. unfold client.NewTransport. simpl.
    unfold client.TLSDialer.Dial, client.TLSDialer.Target, DoHandshake.
    fold target.
    destruct (net_DialContext ctx "tcp" target) as [tcp|e];
      [|by exists (Some e)].
    destruct (Deadline ctx); simpl;
      (destruct (tls_Handshake _) as [e|]; [by exists (Some e)|by exists None]).
Qed.

(** X13.  [RealDialer.Dial] calls the [DialDone] hook with a nil error also
    when the dial has failed, where [SSHDialer.Dial] reports the error of
    the same failed dial; it returns what [ssh.Dial] returned.
    [RealDialer.Close] closes the client it is given and does nothing for a
    nil client. *)
Theorem RealDialer_DialDone_reports_nil (rd : RealDialer.t) (ctx : Context) :
  let target := rd.(RealDialer.target) in
  let d := client.SSHDialer.NewSSHDialer target rd.(RealDialer.config) in
  events (RealDialer.Dial rd ctx)
  = [Traced (DialStart target); Traced (DialDone target None)]
  /\ (forall e,
        ssh_Dial "tcp" target rd.(RealDialer.config) = Failed e ->
        outcome (RealDialer.Dial rd ctx) = Done (None, Some e)
        /\ client.SSHDialer.Dial d ctx
           = ([Traced (DialStart target); Traced (DialDone target (Some e))],
              Done (None, Some e)))
  /\ (forall cl,
        ssh_Dial "tcp" target rd.(RealDialer.config) = Got cl ->
        outcome (RealDialer.Dial rd ctx) = Done (Some cl, None)
        /\ RealDialer.Close rd (Some cl)
           = ([Closed (HClient cl)], Done (close_result (HClient cl))))
  /\ RealDialer.Close rd None = ([], Done None).
Proof.
  intros target d. split; [done|]. split; [|split; [|done]].
  - intros e He. unfold RealDialer.Dial, client.SSHDialer.Dial. simpl.
    fold target. by rewrite He.
  - intros cl Hcl. unfold RealDialer.Dial. simpl. fold target. by rewrite Hcl.
Qed.

End hooks_and_factories.

(** ** The pipes of an SSH connection *)

Section pipes.
Context {W : World} {P : Pipes}.


Lemma write_all_open (c : client.sshConn.t) w ps :
  c.(client.sshConn.writer) = Some w ->
  sshConn_io.write_all c ps = Done (c, pipe_Write w <$> ps).
Proof.
  intros Hw. induction ps as [|p ps IH]; [done|].
  simpl. unfold sshConn_io.Write. by rewrite Hw, IH.
Qed.

Lemma write_all_first_time (c : client.sshConn.t) s w p ps :
  c.(client.sshConn.session) = Some s ->
  c.(client.sshConn.writer) = None ->
  session_StdinPipe s = Got w ->
  forall c' rs,
    sshConn_io.write_all c (p :: ps) = Done (c', rs) ->
    c' = sshConn_io.set_writer c w
    /\ events (client.sshConn.Close c')
       = Closed (HPipe w) :: events (client.sshConn.Close c).
Proof.
  intros Hs Hw Hpipe c' rs. simpl. unfold sshConn_io.Write at 1.
  rewrite Hw, Hs, Hpipe. rewrite (write_all_open _ w) by done.
  intros [= <- _]. split; [done|].
  rewrite !sshConn_Close_events, Hw. simpl.
  by destruct (client.sshConn.session c), (client.sshConn.client c).
Qed.


(** X15.  What reading and writing change for [Close].  Reads never change
    what [Close] closes.  The first successful write on a connection makes
    [Close] close the stdin pipe first, before the session and the client;
    a connection that was never written to has no pipe to close. *)
Theorem sshConn_io_and_Close (c : client.sshConn.t) :
  (forall ps c' rs,
     sshConn_io.read_all c ps = Done (c', rs) ->
     events (client.sshConn.Close c') = events (client.sshConn.Close c))
  /\ (c.(client.sshConn.writer) = None ->
      (forall h, In (Closed (HPipe h)) (events (client.sshConn.Close c)) -> False)
      /\ forall s w p ps c' rs,
           c.(client.sshConn.session) = Some s ->
           session_StdinPipe s = Got w ->
           sshConn_io.write_all c (p :: ps) = Done (c', rs) ->
           events (client.sshConn.Close c')
           = Closed (HPipe w) :: events (client.sshConn.Close c)).
Proof.
  split.
  - intros ps. revert c. induction ps as [|p ps IH]; intros c c' rs.
    + by intros [= <- _].
    + simpl. destruct (sshConn_io.Read c p) as [[c1 r]|msg] eqn:HR; [|done].
      destruct (sshConn_io.read_all c1 ps) as [[c2 rs']|msg] eqn:HA; [|done].
      intros [= <- _]. rewrite (IH _ _ _ HA).
      unfold sshConn_io.Read in HR. rewrite !sshConn_Close_events.
      destruct (client.sshConn.reader c) eqn:Hr; [by injection HR as <- _|].
      destruct (client.sshConn.session c) eqn:Hs; [|done].
      destruct (session_StdoutPipe _); injection HR as <- _;
        simpl; by rewrite ?Hs.
  - intros Hw. split.
    + intros h. rewrite sshConn_Close_events, Hw.
      destruct (client.sshConn.session c), (client.sshConn.client c);
        simpl; intuition congruence.
    + intros s w p ps c' rs Hs Hpipe.
      intros Hall.
      by destruct (write_all_first_time c s w p ps Hs Hw Hpipe
                     c' rs Hall) as [_ Hc'].
Qed.

End pipes.

(** ** The plain TLS server *)

Section tls_server.
Context {W : World}.

(** X16.  The accept loop of the TLS server looks after every connection
    it accepts: each one is closed exactly once, whether it was not a TLS
    connection, failed its handshake, or was served; and the handler runs
    for exactly the TLS connections whose handshake succeeded.  (The lists
    are in the order of arrival because the events of a handler goroutine
    are listed where it is started; when a served connection is closed
    relative to later arrivals is up to its handler.) *)
Theorem accept_loop_closes_every_connection (accepts : list (Try tlsserver.Incoming)) :
  tlsserver.closed_handles (tlsserver.acceptConnections accepts)
  = tlsserver.handle_of <$> tlsserver.accepted accepts
  /\ tlsserver.handled (tlsserver.acceptConnections accepts)
     = tlsserver.served (tlsserver.accepted accepts).
Proof.
  unfold tlsserver.acceptConnections. simpl.
  induction accepts as [|[conn|e] rest [IH1 IH2]]; [done| |done].
  destruct conn as [c|c]; simpl.
  - destruct (tls_Handshake c); simpl; by rewrite IH1, IH2.
  - by rewrite IH1, IH2.
Qed.

(** X17.  The server stops accepting at the first [Accept] that fails: the
    failure is reported to the [Accepted] hook and nothing that the
    listener would have returned afterwards is accepted; failures of single
    connections before that do not stop the loop.  When listening fails,
    [NewServer] returns no server and the error, after the [Listened] hook,
    and accepts nothing. *)
Theorem server_stops_at_first_accept_error (address : string)
    (conns : list tlsserver.Incoming) (e : error) (rest : list (Try tlsserver.Incoming)) :
  tlsserver.accept_loop (map Got conns ++ Failed e :: rest)
  = tlsserver.accept_loop (map Got conns)
      ++ [tlsserver.Traced (tlsserver.Accepted None (Some e))]
  /\ tlsserver.accepted (map Got conns ++ Failed e :: rest) = conns
  /\ (forall l,
        tlsserver.NewServer address (Got l) (map Got conns ++ Failed e :: rest)
        = (tlsserver.Traced (tlsserver.Listened address None)
             :: tlsserver.Traced tlsserver.StartAccepting
             :: tlsserver.accept_loop (map Got conns)
             ++ [tlsserver.Traced (tlsserver.Accepted None (Some e))],
           (Some {| tlsserver.listener := l |}, None)))
  /\ (forall accepts,
        tlsserver.NewServer address (Failed e) accepts
        = ([tlsserver.Traced (tlsserver.Listened address (Some e))],
           (None, Some e))).
Proof.
  assert (Hloop : tlsserver.accept_loop (map Got conns ++ Failed e :: rest)
                  = tlsserver.accept_loop (map Got conns)
                      ++ [tlsserver.Traced (tlsserver.Accepted None (Some e))]).
  { induction conns as [|conn conns IH]; [done|].
    simpl. destruct conn as [c|c]; [destruct (tls_Handshake c)|];
      simpl; by rewrite IH. }
  split; [exact Hloop|]. split; [|split; [|done]].
  - clear Hloop. induction conns as [|conn conns IH]; [done|].
    simpl. by rewrite IH.
  - intros l. unfold tlsserver.NewServer, tlsserver.acceptConnections.
    by rewrite Hloop.
Qed.

End tls_server.

(** ** The trace carried by a context *)

Section trace_context.
Context {Trace : Type} (noOpTrace : Trace).

(** X18.  Looking up the trace of a context.  A trace attached with
    [WithTrace] is the one [ContextTrace] returns; a context without a
    trace gives [noOpTrace]; attaching a nil trace gives [noOpTrace] too,
    also when the parent carries a trace, which the nil pointer hides.  On
    a nil context [ContextTLSTrace] returns [noOpTrace] while [ContextTrace]
    of the Call Home packages panics; on any other context the two agree. *)
Theorem ContextTrace_after_WithTrace (ctx : tracectx.context) (t : Trace) :
  tracectx.ContextTrace noOpTrace (Some (tracectx.WithTrace ctx (Some t))) = Done t
  /\ tracectx.ContextTrace noOpTrace
       (Some (tracectx.WithTrace (tracectx.WithTrace ctx (Some t)) None))
     = Done noOpTrace
  /\ tracectx.ContextTrace noOpTrace (Some tracectx.Background) = Done noOpTrace
  /\ tracectx.ContextTLSTrace noOpTrace None = noOpTrace
  /\ (exists msg, tracectx.ContextTrace noOpTrace None = Panic msg)
  /\ (forall c,
        tracectx.ContextTrace noOpTrace (Some c)
        = Done (tracectx.ContextTLSTrace noOpTrace (Some c))).
Proof.
  repeat split; try done.
  - by eexists.
  - intros c. simpl. by destruct (tracectx.Value c tracectx.traceKey) as [[[?|]|]|].
Qed.

(** X19.  Values attached to a context under other keys, however many, do
    not change the trace found in it: a trace attached underneath is still
    returned, and a context without trace still gives [noOpTrace]. *)
Theorem ContextTrace_ignores_other_keys (ctx : tracectx.context)
    (bindings : list (nat * tracectx.Val)) :
  tracectx.ContextTrace noOpTrace (Some (tracectx.with_values ctx bindings))
  = tracectx.ContextTrace noOpTrace (Some ctx)
  /\ forall t,
       tracectx.ContextTrace noOpTrace
         (Some (tracectx.with_values (tracectx.WithTrace ctx (Some t)) bindings))
       = Done t.
Proof.
  assert (H : forall c,
             tracectx.ContextTrace noOpTrace (Some (tracectx.with_values c bindings))
             = tracectx.ContextTrace noOpTrace (Some c)).
  { induction bindings as [|[n v] rest IH]; intros c; [done|].
    simpl tracectx.with_values. by rewrite IH. }
  split; [apply H|]. intros t. by rewrite H.
Qed.

End trace_context.

(** * The theorems at work in the sample world *)

Section in_the_sample_world.
#[local] Existing Instance sample.world.

(** The loop in the sample world: an "x11" request and then the end of the
    stream, and an "x11" request followed by a session that asks for the
    netconf subsystem. *)
Lemma non_session_channels_are_rejected_witness :
  let d := servercallhome.SSHDialer.NewSSHDialer "manager:4334" 1 in
  let sshConn := {| serverconn_id := 1 |} in
  forallb (fun c => negb (is_session c)) [sample.x11_channel] = true
  /\ servercallhome.SSHDialer.Dial d sample.background
     = ([Traced (DialStart "manager:4334");
         Traced (SSHConnected "manager:4334");
         Rejected {| chan_id := 5 |} UnknownChannelType "unknown channel type";
         Traced (DialDone "manager:4334" None)],
        Done (None, Some (Errorf "callhome: no session channel received")))
  /\ outcome (servercallhome.SSHDialer.handleChannels d sshConn sample.peer_channels)
     = Done (Some (servercallhome.sshCallhomeConn.rwc
                     {| servercallhome.sshCallhomeConn.conn := sshConn;
                        servercallhome.sshCallhomeConn.channel := {| chan_id := 0 |} |}),
             None).
Proof.
  intros d sshConn. split; [reflexivity|].
  destruct (non_session_channels_are_rejected d sshConn [sample.x11_channel] eq_refl)
    as (_ & HLater & _ & HDial).
  split.
  - exact (HDial sample.background (sample.tcp 7 "manager:4334") eq_refl eq_refl).
  - exact (HLater
             (sample.session_channel
                [sample.env_request;
                 sample.subsystem_request sample.netconf_payload;
                 sample.env_request])
             [] [sample.env_request]
             (sample.subsystem_request sample.netconf_payload)
             [sample.env_request] eq_refl eq_refl eq_refl eq_refl).
Defined.

(** C1, at a request stream on which the code departs from the
    specification.  The session channel carries one request, of type
    "subsystem", with a payload of three bytes, so the stream ends without a
    netconf subsystem request and the negotiation should fail with a
    refusal, a closed channel and an error.  Instead the goroutine panics
    on [req.Payload[4:]] while it inspects the request: the request gets no
    reply, the channel is not closed, [Dial] returns nothing and the
    process stops.  (On every stream without such a short subsystem request
    the negotiation is as specified: [handleChannels_exhausted] and
    [handleChannels_granted].) *)
Theorem short_subsystem_request_aborts_negotiation :
  let d := servercallhome.SSHDialer.NewSSHDialer "manager:4334" 3 in
  let ch := {| chan_id := 0 |} in
  other_request sample.short_request = false
  /\ names_netconf sample.short_request = false
  /\ servercallhome.SSHDialer.Dial d sample.background
     = ([Traced (DialStart "manager:4334");
         Traced (SSHConnected "manager:4334");
         Accepted ch],
        Panic "slice bounds out of range")
  /\ ~ In (Replied ch sample.short_request false)
         (events (servercallhome.SSHDialer.Dial d sample.background))
  /\ ~ In (Closed (HChannel ch))
         (events (servercallhome.SSHDialer.Dial d sample.background)).
Proof.
  repeat split; simpl; intuition discriminate.
Qed.

(** C9, at the failing input.  For a "subsystem" request the code evaluates
    [req.Payload[4:]] without looking at the length of the payload; with
    fewer than four bytes the slice expression is out of range and the
    goroutine panics.  ([is_netconf_subsystem_short] is the general
    statement.) *)
Theorem short_payload_slice_is_out_of_range :
  servercallhome.SSHDialer.Payload_from_4 sample.short_request
  = ([], Panic "slice bounds out of range")
  /\ servercallhome.SSHDialer.is_netconf_subsystem (sample.subsystem_request [])
     = ([], Panic "slice bounds out of range")
  /\ servercallhome.SSHDialer.serve_requests {| chan_id := 0 |}
       [sample.env_request; sample.short_request;
        sample.subsystem_request sample.netconf_payload]
     = ([Replied {| chan_id := 0 |} sample.env_request false],
        Panic "slice bounds out of range").
Proof. repeat split. Qed.

(** C5, at the failing input.  A transport over a fresh SSH dial whose
    session fails to close: [Close] returns the error of the dialer, and
    the [ConnectionClosed] hook is called with a nil error, because the
    arguments of the deferred call were evaluated before the dialer was
    asked to close.  ([transport_Close_spec] is the general statement.) *)
Theorem ConnectionClosed_hook_misses_the_error :
  let d := client.SSHDialer.NewSSHDialer "device:830" 4 in
  (do r <- client.NewTransport sample.background d ;
   match r with
   | Got tr => client.transportImpl.Close tr
   | Failed e => ret (Some e)
   end)
  = ([Traced (ConnectStart "device:830");
      Traced (DialStart "device:830");
      Traced (DialDone "device:830" None);
      Traced (ConnectDone "device:830" None);
      Closed (HSession {| session_id := 4 |});
      Closed (HClient {| client_id := 4; client_RemoteAddr := "device:830" |});
      Traced (ConnectionClosed "device:830" None)],
     Done (Some (LibError 7))).
Proof. reflexivity. Qed.

(** Ownership in the sample world: a session on a client of the caller,
    dialed and closed. *)
Lemma Close_respects_ownership_witness :
  let cl := {| client_id := 9; client_RemoteAddr := "device:830" |} in
  let d := client.SSHClientDialer.NewSSHClientDialer cl in
  exists conn,
    client.Dial d sample.cancelled = ([], Done (Some conn, None))
    /\ events (client.Close d (Some conn))
       = [Closed (HSession {| session_id := 9 |})].
Proof.
  intros cl d.
  destruct (@Close_respects_ownership sample.world) as (_ & _ & _ & _ & H & _).
  exact (H d sample.cancelled {| session_id := 9 |} eq_refl eq_refl).
Defined.

(** The two failure stages of a fresh SSH dial in the sample world. *)
Lemma ssh_dial_failures_release_resources_witness :
  client.SSHDialer.Dial (client.SSHDialer.NewSSHDialer "device:830" 1)
    sample.background
  = ([Traced (DialStart "device:830");
      Closed (HClient {| client_id := 1; client_RemoteAddr := "device:830" |});
      Traced (DialDone "device:830" (Some (LibError 5)))],
     Done (None, Some (LibError 5)))
  /\ clientcallhome.SSHListener.Accept
       {| clientcallhome.SSHListener.listener := 1;
          clientcallhome.SSHListener.config := 2 |} sample.background
     = ([Traced (AcceptDone (Some (sample.tcp 1 "device:49152")) None);
         Traced (SSHConnected "device:49152");
         Closed (HSession {| session_id := 2 |});
         Closed (HClient {| client_id := 2; client_RemoteAddr := "device:49152" |})],
        Done (None,
              Some (Wrap "callhome: failed to request netconf subsystem"
                      (LibError 6)))).
Proof.
  destruct (@ssh_dial_failures_release_resources sample.world sample.background)
    as (HDial & HAccept & _).
  split.
  - destruct (HDial (client.SSHDialer.NewSSHDialer "device:830" 1))
      as (_ & H & _).
    exact (H _ _ eq_refl eq_refl).
  - destruct (HAccept {| clientcallhome.SSHListener.listener := 1;
                         clientcallhome.SSHListener.config := 2 |})
      as (_ & _ & _ & H).
    exact (H _ _ _ _ eq_refl eq_refl eq_refl eq_refl).
Defined.

(** The handshake with a deadline in the sample world, succeeding for the
    manager and failing for the device. *)
Lemma tls_handshake_deadline_witness :
  sample.with_deadline.(Deadline) = Some 1700000000%Z
  /\ (let c := tls_Client (sample.tcp 1 "device:49152") 1 in
      clientcallhome.TLSListener.Accept
        {| clientcallhome.TLSListener.listener := 1;
           clientcallhome.TLSListener.config := 1 |} sample.with_deadline
      = ([Traced (AcceptDone (Some (sample.tcp 1 "device:49152")) None);
          DeadlineSet c 1700000000%Z; Handshake c; DeadlineSet c zeroTime;
          Traced (TLSConnected "device:49152" c)],
         Done (Some c, None)))
  /\ (let c := tls_Server (sample.tcp 7 "manager:4335") 0 in
      servercallhome.TLSDialer.Dial
        (servercallhome.TLSDialer.NewTLSDialer "manager:4335" 0)
        sample.with_deadline
      = ([Traced (DialStart "manager:4335");
          DeadlineSet c 1700000000%Z; Handshake c;
          Closed (HNet (sample.tcp 7 "manager:4335"));
          Traced (DialDone "manager:4335" (Some (LibError 3)))],
         Done (None, Some (Wrap "callhome: TLS handshake failed" (LibError 3))))).
Proof.
  split; [reflexivity|].
  destruct (@tls_handshake_deadline sample.world sample.with_deadline
              1700000000%Z eq_refl) as (_ & HAccept & HDial).
  split.
  - destruct (HAccept {| clientcallhome.TLSListener.listener := 1;
                         clientcallhome.TLSListener.config := 1 |}
                (sample.tcp 1 "device:49152") eq_refl) as (H & _).
    exact (H eq_refl).
  - destruct (HDial (servercallhome.TLSDialer.NewTLSDialer "manager:4335" 0)
                (sample.tcp 7 "manager:4335")) as (_ & H); [reflexivity|].
    exact (H (LibError 3) eq_refl).
Defined.

(** A Call Home in the sample world that goes well: the device dials the
    manager, rejects the "x11" channel, accepts the session, refuses the
    "env" request, grants the netconf subsystem and refuses what follows. *)
Example callhome_ssh_dial_succeeds :
  let ch := {| chan_id := 0 |} in
  servercallhome.SSHDialer.Dial
    (servercallhome.SSHDialer.NewSSHDialer "manager:4334" 2) sample.background
  = ([Traced (DialStart "manager:4334");
      Traced (SSHConnected "manager:4334");
      Rejected {| chan_id := 5 |} UnknownChannelType "unknown channel type";
      Accepted ch;
      Replied ch sample.env_request false;
      Replied ch (sample.subsystem_request sample.netconf_payload) true;
      Sent ch true;
      Replied ch sample.env_request false;
      Traced (SubsystemReady "manager:4334");
      Traced (DialDone "manager:4334" None)],
     Done (Some (servercallhome.sshCallhomeConn.rwc
                   {| servercallhome.sshCallhomeConn.conn := {| serverconn_id := 2 |};
                      servercallhome.sshCallhomeConn.channel := ch |}),
           None)).
Proof. reflexivity. Qed.

(** A session channel that asks for another subsystem only. *)
Example callhome_ssh_other_subsystem :
  let ch := {| chan_id := 0 |} in
  let req := sample.subsystem_request sample.sftp_payload in
  servercallhome.SSHDialer.handleChannels
    (servercallhome.SSHDialer.NewSSHDialer "manager:4334" 2)
    {| serverconn_id := 2 |} [sample.session_channel [req]]
  = ([Accepted ch; Replied ch req false; Sent ch false; Closed (HChannel ch)],
     Done (None, Some (Errorf "callhome: netconf subsystem not requested"))).
Proof. reflexivity. Qed.

(** The resolved configuration of the sample caller: the name is kept, the
    timeout comes from the defaults. *)
Example resolved_sample_config :
  let resolved := merge_fields sample.caller_config sample.default_config in
  resolved "Name" = VString "lab" /\ resolved "SetupTimeoutSecs" = VInt 5.
Proof. split; reflexivity. Qed.

(** The merge in the sample world, for a session over an established Call
    Home connection. *)
Lemma defaults_merged_once_witness :
  let d := clientcallhome.TLSConnDialer.NewTLSConnDialer
             (tls_Client (sample.tcp 1 "device:49152") 1) in
  sample.heap !! sample.caller_cfg = Some sample.caller_config
  /\ sample.heap !! client.DefaultConfig = Some sample.default_config
  /\ resolved_heap sample.heap sample.caller_config !! sample.caller_cfg
     = Some sample.caller_config
  /\ merges (events (client.NewRPCSessionFromDialer sample.background d
                       sample.caller_cfg sample.heap)) = 1.
Proof.
  intros d. split; [reflexivity|]. split; [reflexivity|].
  destruct (@defaults_merged_once sample.world _ _ sample.background d
              sample.caller_cfg sample.heap sample.caller_config
              sample.default_config eq_refl eq_refl)
    as (_ & Hkept & _ & _ & _ & _ & Honce).
  split; [exact Hkept|].
  apply Honce; reflexivity.
Defined.

(** A session that fails after a fresh SSH dial, in the sample world. *)
Lemma session_failure_closes_transport_witness :
  let rc := fresh (dom sample.heap) in
  sample.heap !! sample.caller_cfg = Some sample.caller_config
  /\ client.NewRPCSessionFromDialer sample.background
       (client.SSHDialer.NewSSHDialer "mute:830" 5)
       sample.caller_cfg sample.heap
     = ([Merged rc client.DefaultConfig;
         Traced (ConnectStart "mute:830");
         Traced (DialStart "mute:830");
         Traced (DialDone "mute:830" None);
         Traced (ConnectDone "mute:830" None);
         Closed (HSession {| session_id := 5 |});
         Closed (HClient {| client_id := 5; client_RemoteAddr := "mute:830" |});
         Traced (ConnectionClosed "mute:830" None)],
        Done (resolved_heap sample.heap sample.caller_config,
              (None, Some (LibError 8)))).
Proof.
  intros rc. split; [reflexivity|].
  destruct (@session_failure_closes_transport sample.world sample.background
              sample.caller_cfg sample.heap sample.caller_config eq_refl)
    as (_ & HSSH & _).
  exact (HSSH (client.SSHDialer.NewSSHDialer "mute:830" 5)
           {| client_id := 5; client_RemoteAddr := "mute:830" |}
           {| session_id := 5 |} (LibError 8)
           eq_refl eq_refl eq_refl eq_refl).
Defined.

End in_the_sample_world.

(** * The further facts at work in the sample world *)

Section further_in_the_sample_world.
#[local] Existing Instance sample.world.
#[local] Existing Instance sample_io.pipes.

(** A stream with an "env" request, the netconf request and another
    "env" request. *)
Lemma serve_requests_answers_each_once_witness :
  let ch := {| chan_id := 0 |} in
  let requests := [sample.env_request;
                   sample.subsystem_request sample.netconf_payload;
                   sample.env_request] in
  outcome (servercallhome.SSHDialer.serve_requests ch requests) = Done true
  /\ replied_requests (events (servercallhome.SSHDialer.serve_requests ch requests))
     = requests
  /\ grants (events (servercallhome.SSHDialer.serve_requests ch requests)) = 1.
Proof.
  intros ch requests. split; [reflexivity|].
  destruct (serve_requests_answers_each_once ch requests true eq_refl)
    as (H1 & H2 & _).
  split; [exact H1 | exact H2].
Defined.

(** A session that asks for sftp, followed by one that asks for netconf:
    the second is not looked at. *)
Lemma first_session_channel_decides_witness :
  let d := servercallhome.SSHDialer.NewSSHDialer "manager:4334" 2 in
  let sshConn := {| serverconn_id := 2 |} in
  let first := sample.session_channel [sample.subsystem_request sample.sftp_payload] in
  let second := sample.session_channel [sample.subsystem_request sample.netconf_payload] in
  forallb (fun c => negb (is_session c)) [sample.x11_channel] = true
  /\ is_session first = true
  /\ servercallhome.SSHDialer.handleChannels d sshConn
       ([sample.x11_channel] ++ first :: [second])
     = servercallhome.SSHDialer.handleChannels d sshConn
         ([sample.x11_channel] ++ [first]).
Proof.
  intros d sshConn first second. split; [reflexivity|]. split; [reflexivity|].
  exact (first_session_channel_decides d sshConn [sample.x11_channel] first
           [second] eq_refl eq_refl).
Defined.

(** The dial whose peer opens an "x11" channel only: an error is returned,
    the hook sees none, nothing is closed. *)
Lemma callhome_ssh_dial_failure_stages_witness :
  let d := servercallhome.SSHDialer.NewSSHDialer "manager:4334" 1 in
  outcome (servercallhome.SSHDialer.Dial d sample.background)
  = Done (None, Some (Errorf "callhome: no session channel received"))
  /\ exists t,
       events (servercallhome.SSHDialer.Dial d sample.background)
       = t ++ [Traced (DialDone "manager:4334" None)].
Proof.
  intros d. split; [reflexivity|].
  destruct (callhome_ssh_dial_failure_stages d sample.background)
    as (_ & _ & H).
  destruct (H (sample.tcp 7 "manager:4334") {| serverconn_id := 1 |}
              [sample.x11_channel] eq_refl eq_refl) as (_ & _ & Hlast).
  exact (Hlast None (Errorf "callhome: no session channel received") eq_refl).
Defined.

(** A length field of four times 255. *)
Lemma subsystem_name_is_read_from_offset_4_witness :
  length [xff; xff; xff; xff] = 4
  /\ servercallhome.SSHDialer.is_netconf_subsystem
       (sample.subsystem_request
          ([xff; xff; xff; xff] ++ String.list_byte_of_string "netconf"))
     = ([], Done true).
Proof.
  split; [reflexivity|].
  exact (subsystem_name_is_read_from_offset_4 [xff; xff; xff; xff] "netconf"
           true eq_refl).
Defined.

(** The connection of the manager whose session (id 4) fails to close:
    the client stays open. *)
Lemma callhome_Close_stops_at_first_error_witness :
  let cl := {| client_id := 4; client_RemoteAddr := "device:49152" |} in
  let c := {| clientcallhome.sshCallhomeConn.client := cl;
              clientcallhome.sshCallhomeConn.session := {| session_id := 4 |};
              clientcallhome.sshCallhomeConn.reader := None;
              clientcallhome.sshCallhomeConn.writer := Some {| pipe_id := 2 |} |} in
  clientcallhome.sshCallhomeConn.Close c
  = ([Closed (HPipe {| pipe_id := 2 |}); Closed (HSession {| session_id := 4 |})],
     Done (Some (LibError 7))).
Proof.
  intros cl c.
  destruct (@callhome_Close_stops_at_first_error sample.world)
    as (_ & HClose & Hstop & _).
  rewrite HClose.
  apply (Hstop [HPipe {| pipe_id := 2 |}] (HSession {| session_id := 4 |})
           [HClient cl] (LibError 7)).
  - repeat constructor.
  - reflexivity.
Defined.

(** A caller's client (id 2) on which the subsystem request fails. *)
Lemma SSHClientDialer_Dial_spares_the_client_witness :
  let cl := {| client_id := 2; client_RemoteAddr := "device:830" |} in
  client.SSHClientDialer.Dial (client.SSHClientDialer.NewSSHClientDialer cl)
    sample.background
  = ([Closed (HSession {| session_id := 2 |})], Done (None, Some (LibError 6))).
Proof.
  intros cl.
  destruct (SSHClientDialer_Dial_spares_the_client
              (client.SSHClientDialer.NewSSHClientDialer cl) sample.background)
    as (_ & H & _).
  exact (H {| session_id := 2 |} (LibError 6) eq_refl eq_refl).
Defined.

(** The manager accepting under the background context. *)
Lemma tls_handshake_without_deadline_witness :
  sample.background.(Deadline) = None
  /\ (let c := tls_Client (sample.tcp 1 "device:49152") 1 in
      clientcallhome.TLSListener.Accept
        {| clientcallhome.TLSListener.listener := 1;
           clientcallhome.TLSListener.config := 1 |} sample.background
      = ([Traced (AcceptDone (Some (sample.tcp 1 "device:49152")) None);
          Handshake c; DeadlineSet c zeroTime;
          Traced (TLSConnected "device:49152" c)],
         Done (Some c, None))).
Proof.
  split; [reflexivity|].
  destruct (@tls_handshake_without_deadline sample.world sample.background eq_refl)
    as (_ & HAccept & _).
  destruct (HAccept {| clientcallhome.TLSListener.listener := 1;
                       clientcallhome.TLSListener.config := 1 |}
              (sample.tcp 1 "device:49152") eq_refl) as (H & _).
  exact (H eq_refl).
Defined.

(** The dialer that returns a connection together with an error. *)
Lemma NewTransport_brackets_the_dial_witness :
  let d := {| sample_io.half_target := "half:830" |} in
  client.Dial d sample.background
  = ([], Done (Some sample_io.half_conn, Some (LibError 12)))
  /\ client.NewTransport sample.background d
     = ([Traced (ConnectStart "half:830");
         Closed (HOther 1);
         Traced (ConnectDone "half:830" (Some (LibError 12)))],
        Done (Failed (LibError 12))).
Proof.
  intros d. split; [reflexivity|].
  destruct (NewTransport_brackets_the_dial sample.background d []
              (Some sample_io.half_conn) (Some (LibError 12)))
    as (_ & _ & H); [reflexivity|].
  apply (H (LibError 12) sample_io.half_conn [Closed (HOther 1)] None);
    reflexivity.
Defined.

(** The factory on a dial that fails (configuration 0). *)
Lemma factory_without_transport_witness :
  let d := client.SSHDialer.NewSSHDialer "device:830" 0 in
  sample.heap !! sample.caller_cfg = Some sample.caller_config
  /\ client.NewRPCSessionFromDialer sample.background d sample.caller_cfg sample.heap
     = ([Merged (fresh (dom sample.heap)) client.DefaultConfig;
         Traced (ConnectStart "device:830");
         Traced (DialStart "device:830");
         Traced (DialDone "device:830" (Some (LibError 4)));
         Traced (ConnectDone "device:830" (Some (LibError 4)))],
        Done (resolved_heap sample.heap sample.caller_config,
              (None, Some (LibError 4)))).
Proof.
  intros d. split; [reflexivity|].
  destruct (factory_without_transport sample.background d sample.caller_cfg
              sample.heap) as (_ & H).
  exact (H sample.caller_config (LibError 4) eq_refl eq_refl).
Defined.

(** The older dialer on a dial that fails. *)
Lemma RealDialer_DialDone_reports_nil_witness :
  RealDialer.Dial (RealDialer.NewDialer "device:830" 0) sample.background
  = ([Traced (DialStart "device:830"); Traced (DialDone "device:830" None)],
     Done (None, Some (LibError 4))).
Proof.
  destruct (RealDialer_DialDone_reports_nil
              (RealDialer.NewDialer "device:830" 0) sample.background)
    as (Hev & Hfail & _).
  destruct (Hfail (LibError 4) eq_refl) as (Hout & _).
  rewrite <- (go_eta (RealDialer.Dial _ _)). by rewrite Hev, Hout.
Defined.


(** A write on a fresh connection, then [Close]. *)
Lemma sshConn_io_and_Close_witness :
  let c := sample_io.fresh_conn 5 in
  let c' := sshConn_io.set_writer c {| pipe_id := 2 |} in
  sshConn_io.write_all c [[x68; x69]] = Done (c', [(2, None)])
  /\ events (client.sshConn.Close c')
     = Closed (HPipe {| pipe_id := 2 |}) :: events (client.sshConn.Close c).
Proof.
  intros c c'. split; [reflexivity|].
  destruct (sshConn_io_and_Close c) as (_ & H).
  destruct (H eq_refl) as (_ & Hwrite).
  exact (Hwrite {| session_id := 5 |} {| pipe_id := 2 |} [x68; x69] [] c'
           [(2, None)] eq_refl eq_refl eq_refl).
Defined.


End further_in_the_sample_world.
